(** * covid-dashboard: the data pipeline and the query engine of [app.py]

    The development follows the script top to bottom:

    - [Int64]   : the arithmetic of the integer columns (NumPy [int64]);
    - [Float64] : the binary64 operations used by the feature derivation,
                  on the Standard Library's [SpecFloat] model of IEEE 754;
    - the pipeline (normalisation, [groupby] aggregation, feature derivation)
      and the filter / KPI computation of [update_dashboard], on the frame
      [data] with the dtype of its [Date] column;
    - the bounds of the date picker, the options of the country dropdown and
      the KPI cards with their formatted values.

    The figure and the layout are not modelled. *)

From Stdlib Require Import ZArith List Bool Lia Permutation Sorted.
From Stdlib Require Import Strings.String Strings.Ascii.
From Stdlib Require Import Floats.SpecFloat.
From Stdlib Require Import Numbers.DecimalString Numbers.DecimalPos Numbers.DecimalZ.
Import ListNotations.

Local Open Scope Z_scope.

(* ================================================================= *)
(** ** Integer columns: NumPy [int64] *)

Module Int64.

Definition int64_min : Z := - 2 ^ 63.
Definition int64_max : Z := 2 ^ 63 - 1.

(** The values an [int64] cell can hold. *)
Definition int64 (x : Z) : Prop := int64_min <= x <= int64_max.

(** Two's-complement wrap-around of an exact result. *)
Definition wrap64 (x : Z) : Z := (x + 2 ^ 63) mod 2 ^ 64 - 2 ^ 63.

Definition add64 (a b : Z) : Z := wrap64 (a + b).
Definition sub64 (a b : Z) : Z := wrap64 (a - b).

End Int64.
Import Int64.

(* ================================================================= *)
(** ** binary64 *)

Module Float64.

Definition prec : Z := 53.
Definition emax : Z := 1024.

Definition f64_zero : spec_float := S754_zero false.

(** The literal [0.8]: 0x1.999999999999ap-1. *)
Definition f64_0_8 : spec_float := S754_finite false 7205759403792794 (-53).

(** Its significand. *)
Definition mK : Z := 7205759403792794.

(** [int64 -> float64] conversion, round to nearest even. *)
Definition f64_of_int (n : Z) : spec_float := binary_normalize prec emax n 0 false.

Definition f64_mul : spec_float -> spec_float -> spec_float := SFmul prec emax.

(** [np.clip(x, a_min=lo, a_max=None)] on one cell: [maximum(x, lo)];
    a NaN stays a NaN. *)
Definition f64_clip_min (x lo : spec_float) : spec_float :=
  match SFcompare x lo with
  | Some Lt => lo
  | _ => x
  end.

(** [.astype(int)], with [int] the 64-bit integer: truncation toward zero;
    what does not fit in an [int64] (and NaN, infinities) becomes the minimal
    [int64], as the conversion instruction of the platform does. *)
Definition f64_to_int64 (x : spec_float) : Z :=
  match x with
  | S754_zero _ => 0
  | S754_finite s m e =>
      let t := cond_Zopp s (Z.shiftl (Zpos m) e) in
      if (int64_min <=? t) && (t <=? int64_max) then t else int64_min
  | _ => int64_min
  end.

End Float64.
Import Float64.

(** Line 29:
    [np.clip((Confirmed - Deaths) * 0.8, a_min=0, a_max=None).astype(int)]. *)
Definition recovered_of (confirmed deaths : Z) : Z :=
  f64_to_int64
    (f64_clip_min (f64_mul (f64_of_int (sub64 confirmed deaths)) f64_0_8) f64_zero).

(** Line 30: [Confirmed - Deaths - Recovered]. *)
Definition active_of (confirmed deaths recovered : Z) : Z :=
  sub64 (sub64 confirmed deaths) recovered.

(* ================================================================= *)
(** ** Frames *)

(** A [datetime.date], as its proleptic Gregorian ordinal
    ([date.toordinal()]): comparison of dates is comparison of ordinals. *)
Definition date : Type := Z.

(** A row of the CSV restricted to the four columns of line 16. *)
Record RawRecord : Type := {
  Country_Region : string;
  Last_Update : string;
  raw_Confirmed : Z;
  raw_Deaths : Z
}.

(** A row of [data] from line 21 to line 26: the frame has the same four
    columns before and after the [groupby]. *)
Record Row : Type := {
  Country : string;
  Date : date;
  Confirmed : Z;
  Deaths : Z
}.

Definition NormalizedRecord : Type := Row.
Definition DailyCountryRecord : Type := Row.

(** A row of [data] after lines 29 and 30. *)
Record DerivedRecord : Type := {
  daily : DailyCountryRecord;
  Recovered : Z;
  Active : Z
}.

(* ================================================================= *)
(** ** Lines 16 to 21: renaming, date coercion, [dropna] *)

(** The [Last_Update] column of the CSV, the argument of [pd.to_datetime]. *)
Definition timestamps (raw : list RawRecord) : list string :=
  map Last_Update raw.

Section Cells.

(** How the cells of one column are read, once pandas has seen the column:
    [to_datetime column] below. *)
Variable read : string -> option date.

(** Line 20 on one row. *)
Definition coerce_date (r : RawRecord) : option date :=
  read (Last_Update r).

(** Lines 16 to 21 on one row: the row survives [dropna] when its date is
    not [NaT]. *)
Definition normalize_row (r : RawRecord) : list NormalizedRecord :=
  match coerce_date r with
  | Some d => [ {| Country := Country_Region r; Date := d;
                   Confirmed := raw_Confirmed r; Deaths := raw_Deaths r |} ]
  | None => []
  end.

Definition normalize_rows (rows : list RawRecord) : list NormalizedRecord :=
  flat_map normalize_row rows.

Definition is_NaT (r : RawRecord) : bool :=
  match coerce_date r with Some _ => false | None => true end.

End Cells.

Section Normalizer.

(** [pd.to_datetime(column, utc=True, errors='coerce')] followed by
    [.dt.tz_localize(None).dt.date]. pandas reads the column as a whole: it
    infers one format from the first cell that it can read and reads every
    cell in that format, so that what a cell becomes depends on the column
    it stands in, and on the order of that column. [to_datetime column s] is
    what the cell [s] of the column [column] becomes: the calendar date of
    the instant in UTC, or [None] for [NaT]. The parser belongs to pandas. *)
Variable to_datetime : list string -> string -> option date.

(** Lines 16 to 21: every row is read the way that pandas reads the
    [Last_Update] column of this CSV. *)
Definition normalize (raw : list RawRecord) : list NormalizedRecord :=
  normalize_rows (to_datetime (timestamps raw)) raw.

(** The number of rows that [dropna] removes. *)
Definition excluded_count (raw : list RawRecord) : nat :=
  List.length (filter (is_NaT (to_datetime (timestamps raw))) raw).

End Normalizer.

(** What lines 16 to 21 keep of a raw row whose date is [d]. *)
Definition kept_as (read : string -> option date) (r : RawRecord)
  (g : NormalizedRecord) : Prop :=
  read (Last_Update r) = Some (Date g)
  /\ Country g = Country_Region r
  /\ Confirmed g = raw_Confirmed r
  /\ Deaths g = raw_Deaths r.

(* ================================================================= *)
(** ** Lines 23 to 26: [groupby(['Country', 'Date']).agg(sum)] *)

(** Order of the group keys: country first, date second. *)
Definition key_compare (c1 : string) (d1 : date) (c2 : string) (d2 : date)
  : comparison :=
  match String.compare c1 c2 with
  | Eq => Z.compare d1 d2
  | c => c
  end.

Definition row_compare (r g : Row) : comparison :=
  key_compare (Country r) (Date r) (Country g) (Date g).

Definition same_key (c : string) (d : date) (r : Row) : bool :=
  String.eqb (Country r) c && Z.eqb (Date r) d.

(** One step of the accumulation: [acc] holds one row per group seen so far,
    in ascending key order (the default [sort=True]); the row [r] opens its
    group at 0 or is added to it. *)
Fixpoint add_row (r : Row) (acc : list Row) : list Row :=
  match acc with
  | [] =>
      [ {| Country := Country r; Date := Date r;
           Confirmed := add64 0 (Confirmed r);
           Deaths := add64 0 (Deaths r) |} ]
  | g :: acc' =>
      match row_compare r g with
      | Lt =>
          {| Country := Country r; Date := Date r;
             Confirmed := add64 0 (Confirmed r);
             Deaths := add64 0 (Deaths r) |} :: acc
      | Eq =>
          {| Country := Country g; Date := Date g;
             Confirmed := add64 (Confirmed g) (Confirmed r);
             Deaths := add64 (Deaths g) (Deaths r) |} :: acc'
      | Gt => g :: add_row r acc'
      end
  end.

Definition groupby_sum (rows : list NormalizedRecord) : list DailyCountryRecord :=
  fold_left (fun acc r => add_row r acc) rows [].

(** The exact sum of a list of integers. *)
Definition zsum (l : list Z) : Z := fold_right Z.add 0 l.

Definition key_of (r : Row) : string * date := (Country r, Date r).

Definition row_lt (a b : Row) : Prop := row_compare a b = Lt.

(** The rows of a frame that belong to one group, in frame order. *)
Definition group_of (c : string) (d : date) (rows : list Row) : list Row :=
  filter (same_key c d) rows.

(** The row that the specification asks for a group: the two columns summed
    over the members of the group. *)
Definition group_total (c : string) (d : date) (rows : list Row) : option Row :=
  match group_of c d rows with
  | [] => None
  | grp =>
      Some {| Country := c; Date := d;
              Confirmed := wrap64 (zsum (map Confirmed grp));
              Deaths := wrap64 (zsum (map Deaths grp)) |}
  end.

Definition find_key (c : string) (d : date) (l : list Row) : option Row :=
  find (same_key c d) l.

(* ================================================================= *)
(** ** Lines 29 and 30: feature engineering *)

Definition add_features (g : DailyCountryRecord) : DerivedRecord :=
  let rec := recovered_of (Confirmed g) (Deaths g) in
  {| daily := g;
     Recovered := rec;
     Active := active_of (Confirmed g) (Deaths g) rec |}.

Definition derive (rows : list DailyCountryRecord) : list DerivedRecord :=
  map add_features rows.

(** The recovered count as the specification words it: clamp the difference,
    scale it, truncate. The scaling is the binary64 product. *)
Definition recovered_clamp_first (confirmed deaths : Z) : Z :=
  f64_to_int64
    (f64_mul (f64_of_int (Z.max 0 (sub64 confirmed deaths))) f64_0_8).

(** The same with the scaling in exact arithmetic: the floor of four fifths
    of the clamped difference. *)
Definition recovered_exact (confirmed deaths : Z) : Z :=
  (4 * Z.max 0 (confirmed - deaths)) / 5.

(** The rows that section 1 of the script leaves in [data]. *)
Definition load_data (to_datetime : list string -> string -> option date)
  (raw : list RawRecord) : list DerivedRecord :=
  derive (groupby_sum (normalize to_datetime raw)).

(** The dtype of the [Date] column of [data]. The column that line 20
    assigns holds [datetime.date] objects and [NaT]s: pandas stores it as
    [object] when it holds a date, or no cell at all, and as
    [datetime64[ns]] when it holds cells that are all [NaT]. Lines 21 to 30
    keep the dtype of the column. *)
Inductive dtype : Type :=
| Object
| Datetime64.

(** The frame [data] as the rest of the script sees it: its rows, and the
    dtype of its [Date] column, on which [min], [max] and the comparisons
    with a [datetime.date] depend. *)
Record DataFrame : Type := {
  Date_dtype : dtype;
  records : list DerivedRecord
}.

Definition dtype_of_dates (dates : list (option date)) : dtype :=
  match dates with
  | [] => Object
  | _ :: _ =>
      if forallb (fun d => match d with None => true | Some _ => false end) dates
      then Datetime64 else Object
  end.

(** The whole of section 1 of the script. *)
Definition data_frame (to_datetime : list string -> string -> option date)
  (raw : list RawRecord) : DataFrame :=
  {| Date_dtype := dtype_of_dates (map (to_datetime (timestamps raw)) (timestamps raw));
     records := load_data to_datetime raw |}.

(* ================================================================= *)
(** ** Line 57: the options of the country dropdown *)

Fixpoint unique (l : list string) : list string :=
  match l with
  | [] => []
  | x :: l' => x :: filter (fun y => negb (String.eqb y x)) (unique l')
  end.

Fixpoint insert_string (x : string) (l : list string) : list string :=
  match l with
  | [] => [x]
  | y :: l' => if String.ltb x y then x :: l else y :: insert_string x l'
  end.

Definition sorted_strings (l : list string) : list string :=
  fold_right insert_string [] l.

Definition listCountries (data : list DerivedRecord) : list string :=
  sorted_strings (unique (map (fun r => Country (daily r)) data)).

(* ================================================================= *)
(** ** Lines 100 to 117: [update_dashboard] *)

(** [s.split(sep)] for a one-character separator: never empty. *)
Fixpoint split (sep : ascii) (s : string) : list string :=
  match s with
  | EmptyString => [EmptyString]
  | String c s' =>
      if Ascii.eqb c sep then EmptyString :: split sep s'
      else match split sep s' with
           | p :: ps => String c p :: ps
           | [] => [String c EmptyString]
           end
  end.

(** [s.split('T')[0]]. *)
Definition date_part (s : string) : string :=
  nth 0 (split "T"%char s) EmptyString.

(** The filter mask of lines 106 to 108. *)
Definition in_selection (selected_country : string) (start_date end_date : date)
  (r : DerivedRecord) : bool :=
  String.eqb (Country (daily r)) selected_country
  && (start_date <=? Date (daily r))
  && (Date (daily r) <=? end_date).

(** [sort_values('Date')], as an insertion sort. On the dataset of the script
    the selected rows have pairwise distinct dates, so that any sorting
    routine returns this very frame ([sort_values_any_algorithm] below). *)
Fixpoint insert_by_date (r : DerivedRecord) (l : list DerivedRecord)
  : list DerivedRecord :=
  match l with
  | [] => [r]
  | x :: l' =>
      if Date (daily r) <=? Date (daily x) then r :: l
      else x :: insert_by_date r l'
  end.

Definition sort_values_Date (l : list DerivedRecord) : list DerivedRecord :=
  fold_right insert_by_date [] l.

Definition filtered (data : list DerivedRecord) (selected_country : string)
  (start_date end_date : date) : list DerivedRecord :=
  sort_values_Date (filter (in_selection selected_country start_date end_date) data).

(** [Series.max()] of a non-empty column. *)
Definition column_max (xs : list Z) : Z :=
  match xs with
  | [] => 0
  | x :: xs' => fold_left Z.max xs' x
  end.

Record KPIs : Type := {
  total_cases : Z;
  total_deaths : Z;
  total_recovered : Z;
  active_cases : Z
}.

(** Lines 111 to 117. *)
Definition kpis_of (rows : list DerivedRecord) : KPIs :=
  match rows with
  | [] =>
      {| total_cases := 0; total_deaths := 0;
         total_recovered := 0; active_cases := 0 |}
  | r0 :: _ =>
      {| total_cases := column_max (map (fun r => Confirmed (daily r)) rows);
         total_deaths := column_max (map (fun r => Deaths (daily r)) rows);
         total_recovered := column_max (map Recovered rows);
         active_cases := Active (last rows r0) |}
  end.

Record QueryResult : Type := {
  series : list DerivedRecord;
  kpis : KPIs
}.

(** The filter and the KPI computation on calendar dates. *)
Definition query (data : list DerivedRecord) (country : string)
  (startDate endDate : date) : QueryResult :=
  let rows := filtered data country startDate endDate in
  {| series := rows; kpis := kpis_of rows |}.

Definition date_le (a b : DerivedRecord) : Prop :=
  Date (daily a) <= Date (daily b).

Definition zero_kpis : KPIs :=
  {| total_cases := 0; total_deaths := 0; total_recovered := 0; active_cases := 0 |}.

Definition empty_result : QueryResult :=
  {| series := []; kpis := zero_kpis |}.

(** The exceptions of the script: [ValueError] of [strptime] on a string
    that is no date, [TypeError] of an operation on a value of the wrong
    type. *)
Inductive exn : Type :=
| ValueError
| TypeError.

Inductive outcome (A : Type) : Type :=
| Returned (a : A)
| Raised (e : exn).

Arguments Returned {A} a.
Arguments Raised {A} e.

Section Callback.

(** [datetime.strptime(s, '%Y-%m-%d').date()], [None] when it raises
    [ValueError]. *)
Variable strptime : string -> option date.

(** Lines 100 to 117. The two dates are parsed first. The mask of line 107
    then compares the [Date] column with a [datetime.date]: on a column of
    dtype [datetime64[ns]] pandas refuses the comparison with [TypeError];
    on a column of objects the dates are compared. *)
Definition update_dashboard (data : DataFrame)
  (selected_country start_date_str end_date_str : string)
  : outcome QueryResult :=
  match strptime (date_part start_date_str) with
  | None => Raised ValueError
  | Some start_date =>
      match strptime (date_part end_date_str) with
      | None => Raised ValueError
      | Some end_date =>
          match Date_dtype data with
          | Datetime64 => Raised TypeError
          | Object =>
              Returned (query (records data) selected_country start_date end_date)
          end
      end
  end.

End Callback.

(* ================================================================= *)
(** ** Sample parsers and data for the examples *)

Definition digit_of (c : ascii) : option Z :=
  let n := Z.of_N (N_of_ascii c) in
  if (48 <=? n) && (n <=? 57) then Some (n - 48) else None.

Definition is_leap (y : Z) : bool :=
  (y mod 4 =? 0) && (negb (y mod 100 =? 0) || (y mod 400 =? 0)).

Definition days_in_month (y m : Z) : Z :=
  if m =? 2 then (if is_leap y then 29 else 28)
  else if (m =? 4) || (m =? 6) || (m =? 9) || (m =? 11) then 30
  else 31.

Definition days_before_year (y : Z) : Z :=
  let p := y - 1 in p * 365 + p / 4 - p / 100 + p / 400.

Definition days_before_month (y m : Z) : Z :=
  nth (Z.to_nat (m - 1)) [0; 31; 59; 90; 120; 151; 181; 212; 243; 273; 304; 334] 0
  + (if (2 <? m) && is_leap y then 1 else 0).

(** [date(y, m, d).toordinal()], [None] for a day that does not exist. *)
Definition date_of_ymd (y m d : Z) : option date :=
  if (1 <=? y) && (y <=? 9999) && (1 <=? m) && (m <=? 12)
     && (1 <=? d) && (d <=? days_in_month y m)
  then Some (days_before_year y + days_before_month y m + d)
  else None.

Definition digits2 (a b : ascii) : option Z :=
  match digit_of a, digit_of b with
  | Some x, Some y => Some (10 * x + y)
  | _, _ => None
  end.

(** The zero-padded form [YYYY-MM-DD] at the head of a string; the rest of
    the string is returned with the date. *)
Definition iso_date_prefix (s : string) : option (date * string) :=
  match s with
  | String y1 (String y2 (String y3 (String y4 (String "-"
      (String m1 (String m2 (String "-" (String d1 (String d2 rest))))))))) =>
      match digits2 y1 y2, digits2 y3 y4, digits2 m1 m2, digits2 d1 d2 with
      | Some yh, Some yl, Some m, Some d =>
          match date_of_ymd (100 * yh + yl) m d with
          | Some o => Some (o, rest)
          | None => None
          end
      | _, _, _, _ => None
      end
  | _ => None
  end.

(** A sample [strptime]: the zero-padded dates that the date picker sends. *)
Definition strptime_iso (s : string) : option date :=
  match iso_date_prefix s with
  | Some (o, EmptyString) => Some o
  | _ => None
  end.

(** A cell in ISO format: an ISO date, alone or followed by a time of day
    in UTC that is not inspected. *)
Definition iso_cell (s : string) : option date :=
  match iso_date_prefix s with
  | Some (o, EmptyString) => Some o
  | Some (o, String c _) =>
      if Ascii.eqb c "T" || Ascii.eqb c " " then Some o else None
  | None => None
  end.

(** A sample [to_datetime]: every cell is read in ISO format, whatever the
    column. *)
Definition to_datetime_iso (column : list string) (s : string) : option date :=
  iso_cell s.

(** A cell in the format [MM/DD/YYYY]. *)
Definition us_cell (s : string) : option date :=
  match s with
  | String m1 (String m2 (String "/" (String d1 (String d2 (String "/"
      (String y1 (String y2 (String y3 (String y4 EmptyString))))))))) =>
      match digits2 m1 m2, digits2 d1 d2, digits2 y1 y2, digits2 y3 y4 with
      | Some m, Some d, Some yh, Some yl => date_of_ymd (100 * yh + yl) m d
      | _, _, _, _ => None
      end
  | _ => None
  end.

Definition is_date (d : option date) : bool :=
  match d with Some _ => true | None => false end.

(** A sample [to_datetime] that infers the format of a column, out of the
    two above, from the first cell that one of them reads, and reads every
    cell of the column in that format. *)
Definition to_datetime_inferred (column : list string) (s : string)
  : option date :=
  match find (fun c => is_date (iso_cell c) || is_date (us_cell c)) column with
  | Some c => if is_date (iso_cell c) then iso_cell s else us_cell s
  | None => None
  end.

Definition mkRaw (c t : string) (confirmed deaths : Z) : RawRecord :=
  {| Country_Region := c; Last_Update := t;
     raw_Confirmed := confirmed; raw_Deaths := deaths |}.

Definition mkRow (c : string) (d : date) (confirmed deaths : Z) : Row :=
  {| Country := c; Date := d; Confirmed := confirmed; Deaths := deaths |}.

(** The scenario of the specification, with one malformed row added. *)
Definition sample_raw : list RawRecord :=
  [ mkRaw "X" "2021-01-01T08:00Z" 100 5;
    mkRaw "X" "not a date" 7 7;
    mkRaw "X" "2021-01-01T20:00Z" 10 1;
    mkRaw "X" "2021-01-02T00:00Z" 50 2 ].

Definition sample_data : list DerivedRecord :=
  load_data to_datetime_iso sample_raw.

Definition sample_rows : list NormalizedRecord :=
  normalize to_datetime_iso sample_raw.

Definition sample_day1 : DerivedRecord :=
  {| daily := mkRow "X" 737791 110 6; Recovered := 83; Active := 21 |}.

Definition malformed_raw : list RawRecord := [ mkRaw "X" "not a date" 7 7 ].

(** The frame of the scenario, and the frame of a CSV without a timestamp
    that parses. *)
Definition sample_frame : DataFrame := data_frame to_datetime_iso sample_raw.

Definition malformed_frame : DataFrame := data_frame to_datetime_iso malformed_raw.

(** The scenario without its malformed row. *)
Definition clean_raw : list RawRecord :=
  [ mkRaw "X" "2021-01-01T08:00Z" 100 5;
    mkRaw "X" "2021-01-01T20:00Z" 10 1;
    mkRaw "X" "2021-01-02T00:00Z" 50 2 ].

(** A column in two formats. *)
Definition mixed_raw : list RawRecord :=
  [ mkRaw "X" "2021-01-01" 1 0; mkRaw "X" "01/02/2021" 2 0 ].

(** Two days with growing counts. *)
Definition growing_data : list DerivedRecord :=
  [ {| daily := mkRow "X" 737791 100 5; Recovered := 76; Active := 19 |};
    {| daily := mkRow "X" 737792 150 7; Recovered := 114; Active := 29 |} ].

(* ================================================================= *)
(** ** Lines 39 and 40: the bounds of the date picker *)

(** [Series.min()] of a non-empty column. *)
Definition column_min (xs : list Z) : Z :=
  match xs with
  | [] => 0
  | x :: xs' => fold_left Z.min xs' x
  end.

(** The date that [datetime.combine] reads in [NaT]: 0001-01-01, the day of
    ordinal 1. *)
Definition NaT_date : date := 1.

(** [min()] and [max()] of an empty [Date] column, passed to
    [datetime.combine]: of an empty column of objects they are [nan], which
    [combine] refuses with [TypeError], and the script stops; of an empty
    column of dtype [datetime64[ns]] they are [NaT], which [combine] takes
    for a date. *)
Definition combine_empty (t : dtype) : outcome date :=
  match t with
  | Object => Raised TypeError
  | Datetime64 => Returned NaT_date
  end.

(** [datetime.combine(data['Date'].min(), datetime.min.time())]: the earliest
    date, at midnight. *)
Definition MIN_DATE (data : DataFrame) : outcome date :=
  match records data with
  | [] => combine_empty (Date_dtype data)
  | _ :: _ => Returned (column_min (map (fun r => Date (daily r)) (records data)))
  end.

Definition MAX_DATE (data : DataFrame) : outcome date :=
  match records data with
  | [] => combine_empty (Date_dtype data)
  | _ :: _ => Returned (column_max (map (fun r => Date (daily r)) (records data)))
  end.

(* ================================================================= *)
(** ** Notions used to state the facts *)

(** The order of [sorted] on strings. *)
Definition string_lt (a b : string) : Prop := String.compare a b = Lt.

(** The mask [data['Country'] == c]. *)
Definition of_country (c : string) (r : DerivedRecord) : bool :=
  String.eqb (Country (daily r)) c.

(** The exact ceiling of a fifth. *)
Definition ceil_fifth (n : Z) : Z := (n + 4) / 5.

(** Counts as the CSV reports them. *)
Definition nonneg_counts (r : Row) : Prop := 0 <= Confirmed r /\ 0 <= Deaths r.

Definition date_lt (a b : DerivedRecord) : Prop :=
  Date (daily a) < Date (daily b).

(** A column that does not decrease down a frame. *)
Definition nondecreasing (f : DerivedRecord -> Z) (l : list DerivedRecord) : Prop :=
  StronglySorted (fun a b => f a <= f b) l.

(** A date string as the date picker sends it: a day, alone or followed by
    ['T'] and a time of day. *)
Definition with_time (day : string) (time : option string) : string :=
  match time with
  | None => day
  | Some t => (day ++ String "T" t)%string
  end.


(** The rows of the CSV that report on country [c] on day [d]. *)
Definition reports_on (read : string -> option date) (c : string)
  (d : date) (x : RawRecord) : bool :=
  String.eqb (Country_Region x) c
  && match read (Last_Update x) with
     | Some d' => Z.eqb d' d
     | None => false
     end.

(* ================================================================= *)
(** ** Lines 120 to 135: the KPI cards *)

(** The digits of a numeral, last digit first, with a comma after every
    third digit that is not the first of the numeral. *)
Fixpoint group3 (rev_digits : list ascii) : list ascii :=
  match rev_digits with
  | a :: b :: c :: ((_ :: _) as rest) => a :: b :: c :: ","%char :: group3 rest
  | l => l
  end.

Definition with_commas (digits : string) : string :=
  string_of_list_ascii (rev (group3 (rev (list_ascii_of_string digits)))).

(** [f"{value:,}"] for an integer: the decimal numeral with a comma between
    the groups of three digits, after the sign. *)
Definition format_thousands (value : Z) : string :=
  match Z.to_int value with
  | Decimal.Pos d => with_commas (NilZero.string_of_uint d)
  | Decimal.Neg d => String "-" (with_commas (NilZero.string_of_uint d))
  end.

(** A card: the class of the icon and the title of its header, the text of
    its body, and its color. *)
Record Card : Type := {
  icon_class : string;
  card_title : string;
  card_text : string;
  card_color : string
}.

(** Lines 121 to 126. *)
Definition card_data (k : KPIs) : list (string * Z * string * string) :=
  [ ("Confirmed", total_cases k, "warning", "fas fa-lungs-virus");
    ("Active Cases", active_cases k, "primary", "fas fa-users-slash");
    ("Total Deaths", total_deaths k, "danger", "fas fa-skull-crossbones");
    ("Total Recovered", total_recovered k, "success", "fas fa-heartbeat") ]%string.

(** Lines 128 to 135. *)
Definition cards (k : KPIs) : list Card :=
  map (fun '(title, value, color, icon) =>
         {| icon_class := (icon ++ " me-2")%string;
            card_title := title;
            card_text := format_thousands value;
            card_color := color |})
      (card_data k).

(** Reading a card text back: the commas are dropped and the numeral is
    read. *)
Definition not_comma (c : ascii) : bool := negb (Ascii.eqb c ",").

Definition without_commas (s : string) : string :=
  string_of_list_ascii (filter not_comma (list_ascii_of_string s)).

Definition read_thousands (s : string) : option Z :=
  option_map Z.of_int (NilZero.int_of_string (without_commas s)).

(* ================================================================= *)
(** * Facts *)

(** ** The scenario of the specification *)

Example recovered_104 : recovered_of 110 6 = 83.
Proof. vm_compute. reflexivity. Qed.

Example recovered_48 : recovered_of 50 2 = 38.
Proof. vm_compute. reflexivity. Qed.

Example recovered_of_negative : recovered_of 3 10 = 0.
Proof. vm_compute. reflexivity. Qed.

(** Beyond [2^53] the conversion to binary64 rounds before the product does. *)
Example recovered_of_int64_max :
  recovered_of int64_max 0 = 7378697629483821056
  /\ recovered_of (2 ^ 53 + 1) 0 = 7205759403792794
  /\ recovered_of int64_min 0 = 0.
Proof. vm_compute. repeat split. Qed.

(** The literal [0.8] is a normal binary64 number, two fifths of a unit in the
    last place above four fifths. *)
Example f64_0_8_nearest :
  valid_binary prec emax f64_0_8 = true /\ 5 * mK = 4 * 2 ^ 53 + 2.
Proof. split; reflexivity. Qed.

Example sample_normalized :
  normalize to_datetime_iso sample_raw
  = [ mkRow "X" 737791 100 5; mkRow "X" 737791 10 1; mkRow "X" 737792 50 2 ].
Proof. vm_compute. reflexivity. Qed.

Example sample_aggregated :
  groupby_sum (normalize to_datetime_iso sample_raw)
  = [ mkRow "X" 737791 110 6; mkRow "X" 737792 50 2 ].
Proof. vm_compute. reflexivity. Qed.

Example sample_derived :
  sample_data
  = [ {| daily := mkRow "X" 737791 110 6; Recovered := 83; Active := 21 |};
      {| daily := mkRow "X" 737792 50 2; Recovered := 38; Active := 10 |} ].
Proof. vm_compute. reflexivity. Qed.

Example sample_query :
  update_dashboard strptime_iso sample_frame "X"
    "2021-01-01T00:00:00" "2021-01-02"
  = Returned
      {| series := sample_data;
         kpis := {| total_cases := 110; total_deaths := 6;
                    total_recovered := 83; active_cases := 10 |} |}.
Proof. vm_compute. reflexivity. Qed.

(* ================================================================= *)
(** ** binary64: rounding to nearest *)

(** Two steps that recur below: a power of two is positive, and a boolean
    comparison that holds is [true]. *)
Ltac pow2_pos := apply Z.pow_pos_nonneg; lia.

Ltac leb_holds a b :=
  replace (a <=? b) with true by (symmetry; apply Z.leb_le; lia).

(** The shifts of [SpecFloat] as divisions by powers of two. *)

Lemma iter_pos_nat {A} (f : A -> A) (p : positive) (x : A) :
  iter_pos f p x = Nat.iter (Pos.to_nat p) f x.
Proof.
  revert x. induction p as [p IH | p IH |]; intros x; cbn [iter_pos].
  - rewrite !IH, Pos2Nat.inj_xI, <- Nat.iter_succ_r, <- Nat.iter_add.
    f_equal. lia.
  - rewrite !IH, Pos2Nat.inj_xO, <- Nat.iter_add. f_equal. lia.
  - reflexivity.
Qed.

Lemma shr_1_nonneg (m : Z) (r s : bool) :
  0 <= m ->
  shr_1 {| shr_m := m; shr_r := r; shr_s := s |}
  = {| shr_m := m / 2; shr_r := Z.odd m; shr_s := r || s |}.
Proof.
  intros Hm. rewrite <- Z.div2_div.
  destruct m as [| [p | p |] | p]; try reflexivity. lia.
Qed.

(** After [k + 1] shifts the record holds the quotient by [2^(k+1)] and, as
    its round bit, the last bit shifted out. *)
Lemma iter_shr_1 (k : nat) (M : Z) (r s : bool) :
  0 <= M ->
  let res := Nat.iter (S k) shr_1 {| shr_m := M; shr_r := r; shr_s := s |} in
  shr_m res = M / 2 ^ (Z.of_nat k + 1) /\ shr_r res = Z.odd (M / 2 ^ Z.of_nat k).
Proof.
  intros HM. induction k as [| k IH].
  - unfold Nat.iter; cbn [nat_rect]. rewrite shr_1_nonneg by assumption.
    cbn [shr_m shr_r Z.of_nat]. rewrite Z.div_1_r. split; reflexivity.
  - cbv zeta in IH |- *. rewrite Nat.iter_succ.
    destruct (Nat.iter (S k) shr_1 _) as [m' r' s'] eqn:E.
    simpl in IH. destruct IH as [Hm Hr].
    assert (0 <= m').
    { rewrite Hm. apply Z.div_pos; [assumption | pow2_pos]. }
    rewrite shr_1_nonneg by assumption. simpl shr_m. simpl shr_r.
    rewrite Hm. split.
    + rewrite Z.div_div by (try pow2_pos; lia).
      replace (Z.of_nat (S k) + 1) with (Z.of_nat k + 1 + 1) by lia.
      rewrite (Z.pow_add_r 2 (Z.of_nat k + 1) 1) by lia. reflexivity.
    + replace (Z.of_nat (S k)) with (Z.of_nat k + 1) by lia. reflexivity.
Qed.

Lemma digits2_pos_size (p : positive) : digits2_pos p = Pos.size p.
Proof. induction p; simpl; congruence. Qed.

(** [digits2_pos] is the number of binary digits. *)
Lemma digits2_bounds (p : positive) :
  2 ^ (Zpos (digits2_pos p) - 1) <= Zpos p < 2 ^ Zpos (digits2_pos p).
Proof.
  rewrite digits2_pos_size.
  pose proof (Pos.size_gt p) as Hgt. pose proof (Pos.size_le p) as Hle.
  apply Pos2Z.pos_lt_pos in Hgt. apply Pos2Z.pos_le_pos in Hle.
  rewrite Pos2Z.inj_pow in Hgt, Hle.
  change (Zpos p~0) with (2 * Zpos p) in Hle.
  set (d := Zpos (Pos.size p)) in *.
  assert (E : 2 ^ d = 2 * 2 ^ (d - 1)).
  { replace d with (1 + (d - 1)) at 1 by lia.
    rewrite Z.pow_add_r by (subst d; lia). reflexivity. }
  lia.
Qed.

Lemma digits2_unique (p : positive) (k : Z) :
  2 ^ (k - 1) <= Zpos p < 2 ^ k -> Zpos (digits2_pos p) = k.
Proof.
  intros [Hlo Hhi]. pose proof (digits2_bounds p) as [Dlo Dhi].
  set (d := Zpos (digits2_pos p)) in *.
  assert (0 < d) by (subst d; lia).
  destruct (Z.lt_trichotomy d k) as [Hlt | [Heq | Hgt]]; [ | assumption | ].
  - assert (2 ^ d <= 2 ^ (k - 1)) by (apply Z.pow_le_mono_r; lia). lia.
  - assert (0 <= k).
    { destruct (Z.leb_spec 0 k); [assumption | ].
      rewrite (Z.pow_neg_r 2 k) in Hhi by lia. lia. }
    assert (2 ^ k <= 2 ^ (d - 1)) by (apply Z.pow_le_mono_r; lia). lia.
Qed.

(** When the last bit shifted out is set, at least half a unit was dropped. *)
Lemma odd_div_half (M s : Z) :
  0 <= M -> 0 < s -> Z.odd (M / 2 ^ (s - 1)) = true ->
  2 ^ s * (M / 2 ^ s) + 2 ^ (s - 1) <= M.
Proof.
  intros HM Hs Hodd.
  assert (Hh : 0 < 2 ^ (s - 1)) by pow2_pos.
  assert (E : 2 ^ s = 2 ^ (s - 1) * 2).
  { replace s with (s - 1 + 1) at 1 by lia. now rewrite Z.pow_add_r by lia. }
  rewrite E, <- Z.div_div by lia.
  set (h := 2 ^ (s - 1)) in *. set (a := M / h) in *.
  pose proof (Z.div2_odd a) as Ha. rewrite Hodd, Z.div2_div in Ha.
  change (Z.b2z true) with 1 in Ha.
  pose proof (Z.div_mod M h ltac:(lia)) as HMh. fold a in HMh.
  pose proof (Z.mod_pos_bound M h Hh). nia.
Qed.

Lemma round_nearest_even_cases (q : Z) (r s : bool) :
  let M1 := round_nearest_even q
              (loc_of_shr_record {| shr_m := q; shr_r := r; shr_s := s |}) in
  M1 = q \/ (M1 = q + 1 /\ r = true).
Proof.
  destruct r, s; simpl; auto. destruct (Z.even q); auto.
Qed.

(** Rounding a positive integer [mx] scaled by [2^ex], away from the
    subnormal and the overflow ranges: the result is finite, carries the
    sign, and its significand, brought back to the unit [2^s] of the shift,
    is the quotient of [mx] by [2^s] or the next integer, at most half a unit
    above [mx]. *)
Lemma binary_round_aux_spec (sx : bool) (mx : positive) (ex : Z) :
  let d := Zpos (digits2_pos mx) in
  let s := Z.max 0 (d - 53) in
  -1074 <= ex + s -> ex + s <= 970 ->
  exists (m : positive) (e : Z),
    binary_round_aux prec emax sx (Zpos mx) ex loc_Exact = S754_finite sx m e
    /\ ex + s <= e <= ex + s + 1
    /\ Zpos (digits2_pos m) = Z.min d 53
    /\ Zpos mx / 2 ^ s <= Zpos m * 2 ^ (e - ex - s)
    /\ 2 * (2 ^ s * (Zpos m * 2 ^ (e - ex - s))) <= 2 * Zpos mx + 2 ^ s.
Proof.
  intros d s Hlo Hhi.
  pose proof (digits2_bounds mx) as Hd. fold d in Hd.
  unfold binary_round_aux, shr_fexp, fexp, emin, prec, emax.
  cbn [Zdigits2 shr_record_of_loc]. fold d.
  destruct (Z.leb_spec d 53) as [Hd53 | Hd53].
  - (* no shift *)
    assert (Es : s = 0) by (subst s; lia).
    assert (Hn : Z.max (d + ex - 53) (3 - 1024 - 53) - ex <= 0) by lia.
    unfold shr at 1.
    destruct (Z.max (d + ex - 53) (3 - 1024 - 53) - ex) as [| p | p] eqn:En;
      try lia;
      cbn [shr_m loc_of_shr_record round_nearest_even Zdigits2 shr_record_of_loc];
      fold d; rewrite En; cbn [shr shr_m];
      leb_holds ex (1024 - 53);
      exists mx, ex; rewrite Es;
      replace (ex - ex - 0) with 0 by lia;
      rewrite Z.pow_0_r, Z.div_1_r;
      repeat split; try lia.
  - (* shift by s = d - 53 *)
    assert (Es : s = d - 53) by (subst s; lia).
    assert (Hs : 0 < s) by lia.
    replace (Z.max (d + ex - 53) (3 - 1024 - 53) - ex) with s by lia.
    unfold shr at 1. destruct s as [| p | p] eqn:Ep; try lia.
    rewrite <- Ep in *. rewrite iter_pos_nat.
    destruct (Pos.to_nat p) as [| k] eqn:Ek; [lia | ].
    assert (Esk : s = Z.of_nat k + 1) by lia.
    pose proof (iter_shr_1 k (Zpos mx) false false ltac:(lia)) as [Hm Hr].
    destruct (Nat.iter (S k) shr_1 _) as [q r0 s0] eqn:Eit.
    cbn [shr_m shr_r] in Hm, Hr. cbn [shr_m].
    rewrite <- Esk in Hm. replace (Z.of_nat k) with (s - 1) in Hr by lia.
    assert (Hpow : 2 ^ d = 2 ^ s * 2 ^ 53).
    { rewrite <- Z.pow_add_r by lia. f_equal. lia. }
    assert (Hpow1 : 2 ^ (d - 1) = 2 ^ s * 2 ^ 52).
    { rewrite <- Z.pow_add_r by lia. f_equal. lia. }
    assert (H2s : 0 < 2 ^ s) by pow2_pos.
    assert (Hq : 2 ^ 52 <= q < 2 ^ 53).
    { rewrite Hm. split.
      - apply Z.div_le_lower_bound; lia.
      - apply Z.div_lt_upper_bound; lia. }
    assert (Hhalf : 2 * 2 ^ (s - 1) = 2 ^ s).
    { replace s with (s - 1 + 1) at 2 by lia. rewrite Z.pow_add_r by lia. lia. }
    assert (Hqm : 2 ^ s * q <= Zpos mx).
    { rewrite Hm. apply Z.mul_div_le. lia. }
    pose proof (round_nearest_even_cases q r0 s0) as HM1. cbv zeta in HM1.
    set (M1 := round_nearest_even q _) in *.
    assert (HM1b : q <= M1 /\ 2 * (2 ^ s * M1) <= 2 * Zpos mx + 2 ^ s).
    { destruct HM1 as [-> | [-> ->]]; [lia | ].
      symmetry in Hr. apply odd_div_half in Hr; lia. }
    assert (HM1r : 2 ^ 52 <= M1 <= 2 ^ 53) by (destruct HM1 as [-> | [-> _]]; lia).
    destruct M1 as [| m1 | m1] eqn:EM1; try lia.
    cbn [Zdigits2 shr_record_of_loc].
    destruct (Z.eq_dec (Zpos m1) (2 ^ 53)) as [Htop | Htop].
    + (* the rounding carried to the next binade *)
      assert (Em1 : m1 = 9007199254740992%positive) by (apply Pos2Z.inj; exact Htop).
      subst m1. change (Zpos (digits2_pos 9007199254740992)) with 54.
      replace (Z.max (54 + (ex + s) - 53) (3 - 1024 - 53) - (ex + s)) with 1 by lia.
      cbn [shr iter_pos shr_1 shr_m].
      leb_holds (ex + s + 1) (1024 - 53).
      eexists _, _. split; [reflexivity | ].
      replace (ex + s + 1 - ex - s) with 1 by lia.
      change (Zpos (digits2_pos 4503599627370496)) with 53.
      change (Zpos 4503599627370496 * 2 ^ 1) with (Zpos 9007199254740992).
      rewrite <- Hm. repeat split; try lia.
    + assert (Hdm : Zpos (digits2_pos m1) = 53).
      { apply digits2_unique. change (53 - 1) with 52. lia. }
      rewrite Hdm.
      replace (Z.max (53 + (ex + s) - 53) (3 - 1024 - 53) - (ex + s)) with 0 by lia.
      cbn [shr shr_m].
      leb_holds (ex + s) (1024 - 53).
      exists m1, (ex + s). split; [reflexivity | ].
      replace (ex + s - ex - s) with 0 by lia. rewrite Z.pow_0_r, Z.mul_1_r.
      rewrite <- Hm. repeat split; try lia.
Qed.

(** A significand of at most 53 digits is kept as it is. *)
Lemma binary_round_aux_exact (sx : bool) (mx : positive) (ex : Z) :
  Zpos (digits2_pos mx) <= 53 -> -1074 <= ex <= 970 ->
  binary_round_aux prec emax sx (Zpos mx) ex loc_Exact = S754_finite sx mx ex.
Proof.
  intros Hd Hex.
  unfold binary_round_aux, shr_fexp, fexp, emin, prec, emax.
  cbn [Zdigits2 shr_record_of_loc].
  set (d := Zpos (digits2_pos mx)) in *.
  assert (Hn : Z.max (d + ex - 53) (3 - 1024 - 53) - ex <= 0) by lia.
  unfold shr at 1.
  destruct (Z.max (d + ex - 53) (3 - 1024 - 53) - ex) as [| p | p] eqn:En;
    try lia;
    cbn [shr_m loc_of_shr_record round_nearest_even Zdigits2 shr_record_of_loc];
    fold d; rewrite En; cbn [shr shr_m];
    leb_holds ex (1024 - 53);
    reflexivity.
Qed.

Lemma iter_xO_pow (k p : positive) :
  Zpos (Pos.iter xO p k) = Zpos p * 2 ^ Zpos k.
Proof.
  induction k as [| k IH] using Pos.peano_ind.
  - cbn [Pos.iter]. lia.
  - rewrite Pos.iter_succ, Pos2Z.inj_xO, IH, Pos2Z.inj_succ, Z.pow_succ_r by lia.
    lia.
Qed.

(** An integer below [2^53] converts exactly. *)
Lemma binary_round_small (sx : bool) (p : positive) :
  let d := Zpos (digits2_pos p) in
  d <= 53 ->
  exists m : positive,
    binary_round prec emax sx p 0 = S754_finite sx m (d - 53)
    /\ Zpos m = Zpos p * 2 ^ (53 - d)
    /\ Zpos (digits2_pos m) = 53.
Proof.
  intros d Hd. pose proof (digits2_bounds p) as Hb. fold d in Hb.
  assert (Hd0 : 0 < d) by (subst d; lia).
  unfold binary_round, fexp, emin, prec, emax, shl_align. fold d.
  replace (Z.max (d + 0 - 53) (3 - 1024 - 53) - 0) with (d - 53) by lia.
  replace (Z.max (d + 0 - 53) (3 - 1024 - 53)) with (d - 53) by lia.
  destruct (d - 53) as [| k | k] eqn:Ek; try lia.
  - exists p. assert (d = 53) by lia.
    rewrite binary_round_aux_exact by (fold d; lia).
    replace (53 - d) with 0 by lia. rewrite Z.pow_0_r.
    repeat split; lia.
  - assert (E : Zpos (Pos.iter xO p k) = Zpos p * 2 ^ (53 - d)).
    { rewrite iter_xO_pow. f_equal. f_equal. lia. }
    assert (Hdm : Zpos (digits2_pos (Pos.iter xO p k)) = 53).
    { apply digits2_unique. rewrite E.
      assert (E1 : 2 ^ (53 - 1) = 2 ^ (d - 1) * 2 ^ (53 - d)).
      { rewrite <- Z.pow_add_r by lia. f_equal. lia. }
      assert (E2 : 2 ^ 53 = 2 ^ d * 2 ^ (53 - d)).
      { rewrite <- Z.pow_add_r by lia. f_equal. lia. }
      rewrite E1, E2.
      assert (0 < 2 ^ (53 - d)) by pow2_pos.
      split; [apply Z.mul_le_mono_nonneg_r | apply Z.mul_lt_mono_pos_r]; lia. }
    exists (Pos.iter xO p k).
    rewrite binary_round_aux_exact by lia.
    replace (Zneg k) with (d - 53) by lia. auto.
Qed.

(** A larger integer is rounded to 53 digits, at most half a unit up. *)
Lemma binary_round_large (sx : bool) (p : positive) :
  let d := Zpos (digits2_pos p) in
  let s := d - 53 in
  53 < d <= 1000 ->
  exists (m : positive) (e : Z),
    binary_round prec emax sx p 0 = S754_finite sx m e
    /\ s <= e <= s + 1
    /\ Zpos (digits2_pos m) = 53
    /\ 2 * (2 ^ s * (Zpos m * 2 ^ (e - s))) <= 2 * Zpos p + 2 ^ s.
Proof.
  intros d s Hd.
  unfold binary_round, fexp, emin, prec, emax, shl_align. fold d.
  replace (Z.max (d + 0 - 53) (3 - 1024 - 53) - 0) with s by (subst s; lia).
  destruct s as [| k | k] eqn:Ek; try (subst s; lia).
  destruct (binary_round_aux_spec sx p 0) as (m & e & Hr & He & Hdm & _ & Hup);
    fold d; try lia.
  fold d in He, Hdm, Hup.
  replace (Z.max 0 (d - 53)) with (Zpos k) in * by lia.
  cbv beta iota zeta. exists m, e.
  replace (e - 0 - Zpos k) with (e - Zpos k) in Hup by lia.
  split; [exact Hr | ]. repeat split; lia.
Qed.

(** The product of a normal number by [0.8]: the exact product [mF * mK] has
    105 or 106 digits and loses [s] of them, 52 or 53. *)
Lemma mul_0_8_spec (sx : bool) (mF : positive) (eF : Z) :
  Zpos (digits2_pos mF) = 53 -> -900 <= eF <= 900 ->
  exists (m : positive) (e s M1 : Z),
    f64_mul (S754_finite sx mF eF) f64_0_8 = S754_finite sx m e
    /\ 52 <= s <= 53
    /\ eF - 53 + s <= e
    /\ M1 = Zpos m * 2 ^ (e - (eF - 53 + s))
    /\ 2 ^ s * 2 ^ 52 <= Zpos mF * mK
    /\ (Zpos mF * mK) / 2 ^ s <= M1
    /\ 2 * (2 ^ s * M1) <= 2 * (Zpos mF * mK) + 2 ^ s.
Proof.
  intros HdF HeF.
  pose proof (digits2_bounds mF) as HbF. rewrite HdF in HbF.
  change (53 - 1) with 52 in HbF.
  unfold f64_mul, f64_0_8, SFmul. rewrite xorb_false_r.
  set (P := (mF * 7205759403792794)%positive).
  assert (EP : Zpos P = Zpos mF * mK) by (subst P; unfold mK; lia).
  pose proof (digits2_bounds P) as HbP.
  set (d := Zpos (digits2_pos P)) in *.
  assert (HPr : 2 ^ 104 <= Zpos P < 2 ^ 106).
  { rewrite EP. unfold mK.
    change (2 ^ 104) with (2 ^ 52 * 2 ^ 52). change (2 ^ 106) with (2 ^ 53 * 2 ^ 53).
    nia. }
  assert (Hd : 105 <= d <= 106).
  { assert (0 < d) by (subst d; lia). split.
    - destruct (Z.leb_spec 105 d); [assumption | ].
      assert (2 ^ d <= 2 ^ 104) by (apply Z.pow_le_mono_r; lia). lia.
    - destruct (Z.leb_spec d 106); [assumption | ].
      assert (2 ^ 106 <= 2 ^ (d - 1)) by (apply Z.pow_le_mono_r; lia). lia. }
  destruct (binary_round_aux_spec sx P (eF + -53)) as (m & e & Hr & He & _ & Hq & Hup);
    fold d; try lia.
  fold d in He, Hq, Hup.
  replace (Z.max 0 (d - 53)) with (d - 53) in * by lia.
  exists m, e, (d - 53), (Zpos m * 2 ^ (e - (eF - 53 + (d - 53)))).
  replace (e - (eF + -53) - (d - 53)) with (e - (eF - 53 + (d - 53))) in * by lia.
  rewrite <- EP. repeat split; try lia; try assumption.
  rewrite <- Z.pow_add_r by lia. replace (d - 53 + 52) with (d - 1) by lia. lia.
Qed.

Lemma shiftl_scaled (m k E0 : Z) :
  0 <= k -> Z.shiftl (m * 2 ^ k) E0 = Z.shiftl m (k + E0).
Proof.
  intros Hk. rewrite <- (Z.shiftl_mul_pow2 m k) by assumption.
  apply Z.shiftl_shiftl. assumption.
Qed.

(** A positive integer below [2^53], scaled and truncated: the result is
    between 0 and [n], and it is the floor of [4n/5] below [3 * 2^49]. *)
Lemma scale_small (n : Z) :
  0 < n < 2 ^ 53 ->
  exists (m : positive) (e : Z),
    f64_mul (f64_of_int n) f64_0_8 = S754_finite false m e
    /\ 0 <= Z.shiftl (Zpos m) e <= n
    /\ (n < 3 * 2 ^ 49 -> Z.shiftl (Zpos m) e = (4 * n) / 5).
Proof.
  intros Hn. destruct n as [| p | p]; try lia.
  unfold f64_of_int, binary_normalize.
  pose proof (digits2_bounds p) as Hb.
  destruct (binary_round_small false p) as (mF & HF & EmF & HdF).
  { destruct (Z.leb_spec (Zpos (digits2_pos p)) 53); [assumption | ].
    assert (2 ^ 53 <= 2 ^ (Zpos (digits2_pos p) - 1))
      by (apply Z.pow_le_mono_r; lia).
    lia. }
  set (d := Zpos (digits2_pos p)) in *.
  assert (Hd : 0 < d <= 53).
  { split; [subst d; lia | ].
    destruct (Z.leb_spec d 53); [assumption | ].
    assert (2 ^ 53 <= 2 ^ (d - 1)) by (apply Z.pow_le_mono_r; lia). lia. }
  rewrite HF.
  destruct (mul_0_8_spec false mF (d - 53) HdF ltac:(lia))
    as (m & e & s & M1 & Hmul & Hs & He & EM1 & F1 & F2 & F3).
  exists m, e. split; [exact Hmul | ].
  set (E0 := d - 53 - 53 + s) in *.
  assert (Hsh : Z.shiftl (Zpos m) e = M1 / 2 ^ (- E0)).
  { rewrite <- Z.shiftl_div_pow2 by lia. rewrite EM1, shiftl_scaled by lia.
    f_equal. lia. }
  rewrite Hsh. clear Hsh Hmul HF.
  set (E := 2 ^ (53 - d)) in *. set (T := 2 ^ (- E0)). set (Sh := 2 ^ s) in *.
  set (n := Zpos p) in *. set (X := Zpos mF) in *.
  assert (HE : 0 < E) by pow2_pos.
  assert (HT : 0 < T) by pow2_pos.
  assert (HSh : 0 < Sh) by pow2_pos.
  assert (HTS : T * Sh = 2 ^ 53 * E).
  { subst T Sh E E0. rewrite <- !Z.pow_add_r by lia. f_equal. lia. }
  assert (HM1 : 0 <= M1).
  { rewrite EM1. apply Z.mul_nonneg_nonneg; [lia | apply Z.pow_nonneg; lia]. }
  unfold mK in *. change (2 ^ 52) with 4503599627370496 in F1.
  change (2 ^ 53) with 9007199254740992 in HTS.
  (* the rounded product is within half a unit of the exact one *)
  assert (G : 9007199254740992 * (Sh * M1) <= 9007199254740993 * (X * 7205759403792794))
    by lia.
  split; [split | ].
  - apply Z.div_pos; lia.
  - apply Z.lt_succ_r, Z.div_lt_upper_bound; [lia | ].
    apply (Z.mul_lt_mono_pos_l Sh); [lia | ].
    replace (Sh * (T * Z.succ n)) with (9007199254740992 * (X + E)) by nia.
    lia.
  - intros Hbound. change (3 * 2 ^ 49) with 1688849860263936 in Hbound.
    set (Q := 4 * n / 5).
    assert (HQ : 5 * Q <= 4 * n < 5 * Q + 5).
    { subst Q. pose proof (Z.div_mod (4 * n) 5 ltac:(lia)).
      pose proof (Z.mod_pos_bound (4 * n) 5 ltac:(lia)). lia. }
    assert (HQE : 5 * (Q * E) <= 4 * X /\ 4 * X + E <= 5 * ((Q + 1) * E)) by nia.
    assert (HXE : X + E <= 1688849860263936 * E) by nia.
    (* the unit in the last place of the product: a power of two below 2^52 E *)
    assert (HSE : 2 * Sh <= 4503599627370496 * E).
    { assert (Hlt : Sh < 2 ^ (105 - d)).
      { replace (2 ^ (105 - d)) with (4503599627370496 * E)
          by (subst E; change 4503599627370496 with (2 ^ 52);
              rewrite <- Z.pow_add_r by lia; f_equal; lia).
        nia. }
      subst Sh. apply Z.pow_lt_mono_r_iff in Hlt; try lia.
      replace (4503599627370496 * E) with (2 * 2 ^ (104 - d))
        by (subst E; change 4503599627370496 with (2 ^ 52);
            change 2 with (2 ^ 1) at 1;
            rewrite <- !Z.pow_add_r by lia; f_equal; lia).
      apply Z.mul_le_mono_nonneg_l; [lia | ].
      apply Z.pow_le_mono_r; lia. }
    symmetry. apply (Z.div_unique M1 T Q (M1 - T * Q)); [ | lia].
    left. split.
    + assert (Q * T <= X * 7205759403792794 / Sh).
      { apply Z.div_le_lower_bound; [lia | ].
        replace (Sh * (Q * T)) with (9007199254740992 * (Q * E)) by nia. lia. }
      lia.
    + assert (Sh * M1 < Sh * (T * (Q + 1))).
      { replace (Sh * (T * (Q + 1))) with (9007199254740992 * ((Q + 1) * E)) by nia.
        lia. }
      assert (M1 < T * (Q + 1)) by (apply (Z.mul_lt_mono_pos_l Sh); lia).
      lia.
Qed.

(** From [2^53] on the conversion rounds as well; the result stays between 0
    and [n]. *)
Lemma scale_large (n : Z) :
  2 ^ 53 <= n < 2 ^ 63 ->
  exists (m : positive) (e : Z),
    f64_mul (f64_of_int n) f64_0_8 = S754_finite false m e
    /\ 0 <= Z.shiftl (Zpos m) e <= n.
Proof.
  intros Hn. destruct n as [| p | p]; try lia.
  unfold f64_of_int, binary_normalize.
  pose proof (digits2_bounds p) as Hb.
  set (d := Zpos (digits2_pos p)) in *.
  assert (Hd : 53 < d <= 63).
  { split.
    - destruct (Z.leb_spec d 53); [ | assumption].
      assert (2 ^ d <= 2 ^ 53) by (apply Z.pow_le_mono_r; lia). lia.
    - destruct (Z.leb_spec d 63); [assumption | ].
      assert (2 ^ 63 <= 2 ^ (d - 1)) by (apply Z.pow_le_mono_r; lia). lia. }
  destruct (binary_round_large false p) as (mF & eF & HF & HeF & HdF & HupF);
    fold d; try lia.
  fold d in HeF, HupF. rewrite HF.
  destruct (mul_0_8_spec false mF eF HdF ltac:(lia))
    as (m & e & s & M1 & Hmul & Hs & He & EM1 & F1 & F2 & F3).
  exists m, e. split; [exact Hmul | ].
  set (E0 := eF - 53 + s) in *.
  assert (Hsh : Z.shiftl (Zpos m) e = M1 * 2 ^ E0).
  { rewrite <- Z.shiftl_mul_pow2 by lia. rewrite EM1, shiftl_scaled by lia.
    f_equal. lia. }
  rewrite Hsh. clear Hsh Hmul HF.
  set (Sh := 2 ^ s) in *. set (n := Zpos p) in *. set (X := Zpos mF) in *.
  set (K := 2 ^ eF). set (U := 2 ^ (d - 53)) in *. set (W := 2 ^ (eF - (d - 53))) in *.
  assert (HSh : 0 < Sh) by pow2_pos.
  assert (HK : 0 < K) by pow2_pos.
  assert (HU : 0 < U) by pow2_pos.
  assert (HKU : K = U * W).
  { subst K U W. rewrite <- Z.pow_add_r by lia. f_equal. lia. }
  assert (HE0 : 2 ^ E0 * 2 ^ 53 = K * Sh).
  { subst K Sh E0. rewrite <- !Z.pow_add_r by lia. f_equal. lia. }
  assert (HnU : U * 2 ^ 52 <= n).
  { subst U. rewrite <- Z.pow_add_r by lia.
    replace (d - 53 + 52) with (d - 1) by lia. lia. }
  assert (HM1 : 0 <= M1).
  { rewrite EM1. apply Z.mul_nonneg_nonneg; [lia | apply Z.pow_nonneg; lia]. }
  assert (H0 : 0 <= 2 ^ E0) by (apply Z.pow_nonneg; lia).
  unfold mK in *. change (2 ^ 52) with 4503599627370496 in *.
  change (2 ^ 53) with 9007199254740992 in *.
  split; [apply Z.mul_nonneg_nonneg; lia | ].
  set (R := M1 * 2 ^ E0).
  (* the converted integer, then the product, each within half a unit *)
  assert (GF : 9007199254740992 * (X * K) <= 9007199254740993 * n).
  { replace (X * K) with (U * (X * W)) by (rewrite HKU; ring). lia. }
  assert (GM : 9007199254740992 * (Sh * M1) <= 9007199254740993 * (X * 7205759403792794))
    by lia.
  assert (GR : 9007199254740992 * R = Sh * M1 * K).
  { subst R. replace (9007199254740992 * (M1 * 2 ^ E0))
      with (M1 * (2 ^ E0 * 9007199254740992)) by ring.
    rewrite HE0. ring. }
  assert (GP : 9007199254740992 * (Sh * M1 * K)
               <= 9007199254740993 * 7205759403792794 * (X * K)).
  { replace (9007199254740992 * (Sh * M1 * K))
      with (9007199254740992 * (Sh * M1) * K) by ring.
    replace (9007199254740993 * 7205759403792794 * (X * K))
      with (9007199254740993 * (X * 7205759403792794) * K) by ring.
    apply Z.mul_le_mono_nonneg_r; lia. }
  lia.
Qed.

(** A negative integer gives a negative product. *)
Lemma scale_negative (n : Z) :
  - 2 ^ 63 <= n < 0 ->
  exists (m : positive) (e : Z),
    f64_mul (f64_of_int n) f64_0_8 = S754_finite true m e.
Proof.
  intros Hn. destruct n as [| p | p]; try lia.
  unfold f64_of_int, binary_normalize.
  pose proof (digits2_bounds p) as Hb.
  set (d := Zpos (digits2_pos p)) in *.
  assert (Hd : 0 < d <= 64).
  { split; [subst d; lia | ].
    destruct (Z.leb_spec d 64); [assumption | ].
    assert (2 ^ 64 <= 2 ^ (d - 1)) by (apply Z.pow_le_mono_r; lia). lia. }
  destruct (Z.leb_spec d 53) as [Hsmall | Hlarge].
  - destruct (binary_round_small true p Hsmall) as (mF & HF & _ & HdF).
    fold d in HF. rewrite HF.
    destruct (mul_0_8_spec true mF (d - 53) HdF ltac:(lia))
      as (m & e & _ & _ & Hmul & _).
    exists m, e. exact Hmul.
  - destruct (binary_round_large true p) as (mF & eF & HF & HeF & HdF & _);
      fold d; try lia.
    fold d in HeF. rewrite HF.
    destruct (mul_0_8_spec true mF eF HdF ltac:(lia))
      as (m & e & _ & _ & Hmul & _).
    exists m, e. exact Hmul.
Qed.

(* ================================================================= *)
(** ** [int64] arithmetic *)

Lemma wrap64_int64 (x : Z) : int64 (wrap64 x).
Proof.
  unfold int64, wrap64, int64_min, int64_max.
  pose proof (Z.mod_pos_bound (x + 2 ^ 63) (2 ^ 64) ltac:(lia)). lia.
Qed.

Lemma wrap64_id (x : Z) : int64 x -> wrap64 x = x.
Proof.
  unfold int64, wrap64, int64_min, int64_max. intros H.
  rewrite Z.mod_small; lia.
Qed.

Lemma wrap64_congr (x y : Z) :
  x mod 2 ^ 64 = y mod 2 ^ 64 -> wrap64 x = wrap64 y.
Proof.
  intros H. unfold wrap64.
  rewrite <- (Zplus_mod_idemp_l x), <- (Zplus_mod_idemp_l y), H. reflexivity.
Qed.

Lemma wrap64_mod (x : Z) : wrap64 x mod 2 ^ 64 = x mod 2 ^ 64.
Proof.
  unfold wrap64.
  rewrite Zminus_mod_idemp_l. f_equal. lia.
Qed.

Lemma wrap64_add_l (x y : Z) : wrap64 (wrap64 x + y) = wrap64 (x + y).
Proof.
  apply wrap64_congr.
  rewrite <- Zplus_mod_idemp_l, wrap64_mod, Zplus_mod_idemp_l. reflexivity.
Qed.

(* ================================================================= *)
(** ** The recovered estimate *)

Lemma recovered_of_nonpos (c d : Z) :
  sub64 c d <= 0 -> recovered_of c d = 0 /\ recovered_clamp_first c d = 0.
Proof.
  intros Hn. unfold recovered_of, recovered_clamp_first.
  pose proof (wrap64_int64 (c - d)) as Hi. fold (sub64 c d) in Hi.
  unfold int64, int64_min in Hi.
  rewrite Z.max_l by assumption. split; [ | reflexivity].
  destruct (Z.eq_dec (sub64 c d) 0) as [-> | Hne]; [reflexivity | ].
  destruct (scale_negative (sub64 c d)) as (m & e & ->); [lia | reflexivity].
Qed.

Lemma recovered_of_pos (c d : Z) :
  let n := sub64 c d in
  0 < n ->
  recovered_clamp_first c d = recovered_of c d
  /\ 0 <= recovered_of c d <= n
  /\ (n < 3 * 2 ^ 49 -> recovered_of c d = (4 * n) / 5).
Proof.
  intros n Hn. unfold recovered_of, recovered_clamp_first. fold n.
  pose proof (wrap64_int64 (c - d)) as Hi. fold (sub64 c d) in Hi. fold n in Hi.
  unfold int64, int64_min, int64_max in Hi.
  rewrite Z.max_r by lia.
  assert (Hsc : exists (m : positive) (e : Z),
             f64_mul (f64_of_int n) f64_0_8 = S754_finite false m e
             /\ 0 <= Z.shiftl (Zpos m) e <= n
             /\ (n < 3 * 2 ^ 49 -> Z.shiftl (Zpos m) e = (4 * n) / 5)).
  { destruct (Z.ltb_spec n (2 ^ 53)) as [Hs | Hl].
    - apply scale_small. lia.
    - destruct (scale_large n) as (m & e & Hm & Hb); [lia | ].
      exists m, e. repeat split; try tauto.
      change (3 * 2 ^ 49) with 1688849860263936.
      change (2 ^ 53) with 9007199254740992 in Hl. lia. }
  destruct Hsc as (m & e & -> & Hb & Hex).
  change (f64_clip_min (S754_finite false m e) f64_zero) with (S754_finite false m e).
  unfold f64_to_int64, cond_Zopp, int64_min, int64_max.
  leb_holds (- 2 ^ 63) (Z.shiftl (Zpos m) e).
  leb_holds (Z.shiftl (Zpos m) e) (2 ^ 63 - 1).
  cbn [andb]. auto.
Qed.

Lemma recovered_of_range (c d : Z) : 0 <= recovered_of c d <= Z.max 0 (sub64 c d).
Proof.
  destruct (Z.ltb_spec 0 (sub64 c d)) as [Hp | Hn].
  - destruct (recovered_of_pos c d Hp) as (_ & Hb & _). lia.
  - destruct (recovered_of_nonpos c d Hn) as [-> _]. lia.
Qed.

(** ** C1 *)

(** C1. Every row that the feature derivation produces has a non-negative
    [Recovered]; in the [int64] arithmetic of the columns
    [Recovered + Active + Deaths] is [Confirmed], and [Active] is negative
    only if [Confirmed - Deaths] is. When the difference [Confirmed - Deaths]
    does not leave the [int64] range (as for all non-negative counts) the
    same holds of the exact integers: the three columns add up to
    [Confirmed], and [Confirmed >= Deaths] gives [Active >= 0]. *)
Theorem derived_row_invariant (rows : list DailyCountryRecord) (r : DerivedRecord) :
  In r (derive rows) ->
  let c := Confirmed (daily r) in
  let d := Deaths (daily r) in
  0 <= Recovered r
  /\ add64 (add64 (Recovered r) (Active r)) d = wrap64 c
  /\ (Active r < 0 -> sub64 c d < 0)
  /\ (int64 (c - d) ->
      Recovered r + Active r + d = c
      /\ (d <= c -> 0 <= Active r)
      /\ (Active r < 0 -> c - d < 0)).
Proof.
  intros Hin. unfold derive in Hin. apply in_map_iff in Hin.
  destruct Hin as (g & <- & _). cbn [add_features daily Recovered Active].
  set (c := Confirmed g). set (d := Deaths g).
  pose proof (recovered_of_range c d) as Hr.
  pose proof (wrap64_int64 (c - d)) as Hn. fold (sub64 c d) in Hn.
  assert (Ha : active_of c d (recovered_of c d) = sub64 c d - recovered_of c d).
  { unfold active_of. apply wrap64_id.
    unfold int64, int64_min, int64_max in *. lia. }
  split; [lia | split; [ | split]].
  - rewrite Ha. unfold add64.
    replace (recovered_of c d + (sub64 c d - recovered_of c d)) with (sub64 c d)
      by lia.
    rewrite (wrap64_id _ Hn). unfold sub64. rewrite wrap64_add_l. f_equal. lia.
  - rewrite Ha. lia.
  - intros Hcd. rewrite Ha. unfold sub64 in *. rewrite (wrap64_id _ Hcd) in *. lia.
Qed.

(** The first day of the scenario: 83 + 21 + 6 = 110. *)
Lemma derived_row_invariant_witness :
  0 <= Recovered sample_day1
  /\ add64 (add64 (Recovered sample_day1) (Active sample_day1)) 6 = 110
  /\ Recovered sample_day1 + Active sample_day1 + 6 = 110
  /\ 0 <= Active sample_day1.
Proof.
  destruct (derived_row_invariant [mkRow "X" 737791 110 6] sample_day1)
    as (H0 & Hwrap & _ & Hexact).
  - vm_compute. left. reflexivity.
  - destruct Hexact as (Hsum & Hact & _).
    + vm_compute. split; discriminate.
    + split; [exact H0 | split; [exact Hwrap | split; [exact Hsum | ]]].
      apply Hact. vm_compute. discriminate.
Defined.

(** ** C2 *)

(** C2. On every row, the recovered count of the code (scale, clamp,
    truncate) is the one obtained by clamping the difference first, scaling
    it by [0.8] and truncating last; and as long as [Confirmed - Deaths] stays
    below [3 * 2^49] it is the floor of four fifths of the clamped
    difference. *)
Theorem recovered_clamp_scale_floor (g : DailyCountryRecord) :
  let c := Confirmed g in
  let d := Deaths g in
  Recovered (add_features g) = recovered_clamp_first c d
  /\ (int64_min <= c - d < 3 * 2 ^ 49 ->
      Recovered (add_features g) = recovered_exact c d).
Proof.
  cbn [add_features Recovered]. set (c := Confirmed g). set (d := Deaths g).
  split.
  - destruct (Z.ltb_spec 0 (sub64 c d)) as [Hp | Hn].
    + destruct (recovered_of_pos c d Hp) as (-> & _). reflexivity.
    + destruct (recovered_of_nonpos c d Hn) as [-> ->]. reflexivity.
  - intros Hcd. unfold recovered_exact.
    assert (Hi : int64 (c - d)).
    { unfold int64, int64_max. change (3 * 2 ^ 49) with 1688849860263936 in Hcd.
      change (2 ^ 63 - 1) with 9223372036854775807. lia. }
    assert (En : sub64 c d = c - d) by (apply wrap64_id, Hi).
    destruct (Z.ltb_spec 0 (c - d)) as [Hp | Hn].
    + rewrite <- En in Hp. destruct (recovered_of_pos c d Hp) as (_ & _ & Hex).
      rewrite Hex by (rewrite En; lia). rewrite En, Z.max_r by lia. reflexivity.
    + rewrite <- En in Hn. destruct (recovered_of_nonpos c d Hn) as [-> _].
      rewrite En in Hn. rewrite Z.max_l by lia. reflexivity.
Qed.

(** The first day of the scenario: a difference of 104. *)
Lemma recovered_clamp_scale_floor_witness :
  Recovered (add_features (mkRow "X" 737791 110 6)) = recovered_clamp_first 110 6
  /\ Recovered (add_features (mkRow "X" 737791 110 6)) = recovered_exact 110 6.
Proof.
  destruct (recovered_clamp_scale_floor (mkRow "X" 737791 110 6)) as [Hf Hx].
  split; [exact Hf | ]. apply Hx. vm_compute. split; [discriminate | reflexivity].
Defined.

(** The bound of C2 is the first difference at which binary64 rounds the
    product up to the next integer. *)
Example recovered_beyond_bound :
  recovered_of (3 * 2 ^ 49) 0 = recovered_exact (3 * 2 ^ 49) 0 + 1.
Proof. vm_compute. reflexivity. Qed.

(* ================================================================= *)
(** ** The order of the group keys *)

Lemma ascii_compare_refl (a : ascii) : Ascii.compare a a = Eq.
Proof. unfold Ascii.compare. apply N.compare_refl. Qed.

Lemma string_compare_refl (s : string) : String.compare s s = Eq.
Proof.
  induction s as [| a s IH]; [reflexivity | ].
  cbn [String.compare]. now rewrite ascii_compare_refl.
Qed.

Lemma string_compare_eq (s t : string) : String.compare s t = Eq <-> s = t.
Proof.
  split; [apply String.compare_eq_iff | intros ->; apply string_compare_refl].
Qed.

Lemma string_compare_lt_trans (s t u : string) :
  String.compare s t = Lt -> String.compare t u = Lt -> String.compare s u = Lt.
Proof.
  revert t u. induction s as [| a s IH]; intros [| b t] [| c u];
    cbn [String.compare]; try discriminate; try reflexivity.
  unfold Ascii.compare.
  destruct (N.compare_spec (N_of_ascii a) (N_of_ascii b)) as [Eab | Lab | Gab];
    try discriminate;
    destruct (N.compare_spec (N_of_ascii b) (N_of_ascii c)) as [Ebc | Lbc | Gbc];
    try discriminate; intros H1 H2.
  - rewrite Eab, Ebc, N.compare_refl. eapply IH; eassumption.
  - rewrite Eab, (proj2 (N.compare_lt_iff _ _) Lbc). reflexivity.
  - rewrite <- Ebc, (proj2 (N.compare_lt_iff _ _) Lab). reflexivity.
  - rewrite (proj2 (N.compare_lt_iff _ _) (N.lt_trans _ _ _ Lab Lbc)). reflexivity.
Qed.

Lemma key_compare_eq (c1 : string) (d1 : date) (c2 : string) (d2 : date) :
  key_compare c1 d1 c2 d2 = Eq <-> c1 = c2 /\ d1 = d2.
Proof.
  unfold key_compare. split.
  - destruct (String.compare c1 c2) eqn:Ec; try discriminate.
    intros Hd. apply string_compare_eq in Ec. apply Z.compare_eq_iff in Hd. auto.
  - intros [-> ->]. now rewrite string_compare_refl, Z.compare_refl.
Qed.

Lemma key_compare_antisym (c1 : string) (d1 : date) (c2 : string) (d2 : date) :
  key_compare c2 d2 c1 d1 = CompOpp (key_compare c1 d1 c2 d2).
Proof.
  unfold key_compare. rewrite (String.compare_antisym c2 c1).
  destruct (String.compare c1 c2); cbn [CompOpp]; try reflexivity.
  apply Z.compare_antisym.
Qed.

Lemma key_compare_lt_trans (c1 : string) (d1 : date) (c2 : string) (d2 : date)
  (c3 : string) (d3 : date) :
  key_compare c1 d1 c2 d2 = Lt -> key_compare c2 d2 c3 d3 = Lt ->
  key_compare c1 d1 c3 d3 = Lt.
Proof.
  unfold key_compare.
  destruct (String.compare c1 c2) eqn:E12; try discriminate;
    destruct (String.compare c2 c3) eqn:E23; try discriminate; intros H1 H2.
  - apply string_compare_eq in E12, E23. subst.
    rewrite string_compare_refl. apply Z.compare_lt_iff.
    apply Z.compare_lt_iff in H1, H2. eapply Z.lt_trans; eassumption.
  - apply string_compare_eq in E12. subst. now rewrite E23.
  - apply string_compare_eq in E23. subst. now rewrite E12.
  - now rewrite (string_compare_lt_trans _ _ _ E12 E23).
Qed.

Lemma same_key_spec (c : string) (d : date) (r : Row) :
  same_key c d r = true <-> Country r = c /\ Date r = d.
Proof.
  unfold same_key. rewrite andb_true_iff, String.eqb_eq, Z.eqb_eq. tauto.
Qed.

Lemma same_key_self (r : Row) : same_key (Country r) (Date r) r = true.
Proof. now apply same_key_spec. Qed.

Lemma row_compare_eq (r g : Row) :
  row_compare r g = Eq <-> key_of r = key_of g.
Proof.
  unfold row_compare, key_of. rewrite key_compare_eq.
  split; [intros [-> ->]; reflexivity | intros H; injection H; auto].
Qed.

Lemma row_lt_trans (a b c : Row) : row_lt a b -> row_lt b c -> row_lt a c.
Proof. unfold row_lt, row_compare. apply key_compare_lt_trans. Qed.

Lemma row_lt_not_same (a b : Row) :
  row_lt a b -> same_key (Country a) (Date a) b = false.
Proof.
  unfold row_lt, row_compare. intros H.
  destruct (same_key (Country a) (Date a) b) eqn:E; [ | reflexivity].
  apply same_key_spec in E. destruct E as [Ec Ed].
  rewrite Ec, Ed in H.
  assert (key_compare (Country a) (Date a) (Country a) (Date a) = Eq)
    by now apply key_compare_eq.
  congruence.
Qed.

Lemma row_gt_not_same (r g : Row) :
  row_compare r g = Gt -> same_key (Country r) (Date r) g = false.
Proof.
  intros H. destruct (same_key (Country r) (Date r) g) eqn:E; [ | reflexivity].
  apply same_key_spec in E. destruct E as [Ec Ed].
  assert (row_compare r g = Eq) by (apply row_compare_eq; unfold key_of; congruence).
  congruence.
Qed.

Lemma same_key_compat (c : string) (d : date) (a b : Row) :
  key_of a = key_of b -> same_key c d a = same_key c d b.
Proof. unfold key_of, same_key. intros H. injection H as -> ->. reflexivity. Qed.

(* ================================================================= *)
(** ** One step of the accumulation *)

Lemma add_row_keys (r : Row) (acc : list Row) (g : Row) :
  In g (add_row r acc) ->
  key_of g = key_of r \/ (exists g', In g' acc /\ key_of g = key_of g').
Proof.
  induction acc as [| a acc IH]; cbn [add_row].
  - intros [<- | []]. left. reflexivity.
  - destruct (row_compare r a) eqn:E.
    + intros [<- | Hin].
      * left. symmetry. now apply row_compare_eq.
      * right. exists g. split; [now right | reflexivity].
    + intros [<- | Hin].
      * left. reflexivity.
      * right. exists g. auto.
    + intros [<- | Hin].
      * right. exists a. split; [now left | reflexivity].
      * destruct (IH Hin) as [H | (g' & Hg' & H)]; [now left | ].
        right. exists g'. split; [now right | assumption].
Qed.

Lemma row_lt_compat_r (a b b' : Row) :
  key_of b = key_of b' -> row_lt a b -> row_lt a b'.
Proof.
  unfold row_lt, row_compare, key_of. intros H. injection H as -> ->. auto.
Qed.

Lemma row_lt_compat_l (a a' b : Row) :
  key_of a = key_of a' -> row_lt a b -> row_lt a' b.
Proof.
  unfold row_lt, row_compare, key_of. intros H. injection H as -> ->. auto.
Qed.

Lemma add_row_sorted (r : Row) (acc : list Row) :
  StronglySorted row_lt acc -> StronglySorted row_lt (add_row r acc).
Proof.
  induction 1 as [| a acc Hs IH Hall]; cbn [add_row].
  - repeat constructor.
  - destruct (row_compare r a) eqn:E.
    + constructor; [assumption | ].
      eapply Forall_impl; [ | exact Hall]. intros b. now apply row_lt_compat_l.
    + constructor; [now constructor | ].
      constructor.
      * exact E.
      * eapply Forall_impl; [ | exact Hall]. intros b Hb.
        eapply row_lt_trans; [ | exact Hb]. exact E.
    + constructor; [assumption | ].
      apply Forall_forall. intros g Hg.
      destruct (add_row_keys _ _ _ Hg) as [Hk | (g' & Hg' & Hk)].
      * apply (row_lt_compat_r a r g); [now symmetry | ].
        unfold row_lt, row_compare in *.
        rewrite key_compare_antisym, E. reflexivity.
      * apply (row_lt_compat_r a g' g); [now symmetry | ].
        rewrite Forall_forall in Hall. now apply Hall.
Qed.

Lemma find_key_above (c : string) (d : date) (a : Row) (l : list Row) :
  Forall (row_lt a) l -> Country a = c -> Date a = d -> find_key c d l = None.
Proof.
  intros Hall <- <-. unfold find_key.
  induction Hall as [| b l Hb _ IH]; [reflexivity | ].
  cbn [find]. now rewrite (row_lt_not_same _ _ Hb).
Qed.

Lemma find_key_below (r : Row) (a : Row) (l : list Row) :
  row_lt r a -> Forall (row_lt a) l ->
  find_key (Country r) (Date r) (a :: l) = None.
Proof.
  intros Hra Hall. unfold find_key. cbn [find].
  rewrite (row_lt_not_same _ _ Hra).
  induction Hall as [| b l Hb _ IH]; [reflexivity | ].
  cbn [find]. rewrite (row_lt_not_same r b); [exact IH | ].
  eapply row_lt_trans; eassumption.
Qed.

Lemma same_key_record (c : string) (d : date) (c' : string) (d' : date) (x y : Z) :
  same_key c d {| Country := c'; Date := d'; Confirmed := x; Deaths := y |}
  = same_key c d {| Country := c'; Date := d'; Confirmed := 0; Deaths := 0 |}.
Proof. reflexivity. Qed.

Lemma same_key_eta (c : string) (d : date) (r : Row) :
  same_key c d {| Country := Country r; Date := Date r; Confirmed := 0; Deaths := 0 |}
  = same_key c d r.
Proof. reflexivity. Qed.

(** Looking up the group of the added row. *)
Lemma find_add_row_same (r : Row) (acc : list Row) :
  StronglySorted row_lt acc ->
  find_key (Country r) (Date r) (add_row r acc)
  = Some {| Country := Country r; Date := Date r;
            Confirmed :=
              add64 (match find_key (Country r) (Date r) acc with
                     | Some g => Confirmed g
                     | None => 0
                     end) (Confirmed r);
            Deaths :=
              add64 (match find_key (Country r) (Date r) acc with
                     | Some g => Deaths g
                     | None => 0
                     end) (Deaths r) |}.
Proof.
  induction 1 as [| a acc Hs IH Hall]; cbn [add_row].
  - unfold find_key. cbn [find].
    now rewrite same_key_record, same_key_eta, same_key_self.
  - destruct (row_compare r a) eqn:E.
    + apply row_compare_eq in E.
      unfold find_key. cbn [find].
      rewrite same_key_record, same_key_eta, <- (same_key_compat _ _ r a E).
      rewrite same_key_self.
      unfold key_of in E. injection E as Ec Ed. now rewrite Ec, Ed.
    + rewrite (find_key_below r a acc E Hall).
      unfold find_key. cbn [find].
      now rewrite same_key_record, same_key_eta, same_key_self.
    + unfold find_key in *. cbn [find].
      rewrite (row_gt_not_same _ _ E). exact IH.
Qed.

(** Looking up any other group. *)
Lemma find_add_row_other (r : Row) (acc : list Row) (c : string) (d : date) :
  same_key c d r = false -> find_key c d (add_row r acc) = find_key c d acc.
Proof.
  intros Hne. unfold find_key.
  induction acc as [| a acc IH]; cbn [add_row].
  - cbn [find]. now rewrite same_key_record, same_key_eta, Hne.
  - destruct (row_compare r a) eqn:E.
    + apply row_compare_eq in E.
      cbn [find].
      rewrite same_key_record, same_key_eta, <- (same_key_compat _ _ r a E).
      now rewrite Hne.
    + cbn [find]. now rewrite same_key_record, same_key_eta, Hne.
    + cbn [find]. now rewrite IH.
Qed.

(* ================================================================= *)
(** ** The whole accumulation *)

Lemma groupby_sum_snoc (rows : list Row) (r : Row) :
  groupby_sum (rows ++ [r]) = add_row r (groupby_sum rows).
Proof. unfold groupby_sum. now rewrite fold_left_app. Qed.

Lemma groupby_sum_sorted (rows : list Row) :
  StronglySorted row_lt (groupby_sum rows).
Proof.
  induction rows as [| r rows IH] using rev_ind.
  - constructor.
  - rewrite groupby_sum_snoc. now apply add_row_sorted.
Qed.

Lemma zsum_app (l l' : list Z) : zsum (l ++ l') = zsum l + zsum l'.
Proof.
  induction l as [| x l IH]; cbn [zsum fold_right app]; [reflexivity | ].
  fold (zsum (l ++ l')). fold (zsum l). lia.
Qed.

Lemma zsum_perm (l l' : list Z) : Permutation l l' -> zsum l = zsum l'.
Proof.
  induction 1 as [| x l l' _ IH | x y l | l l' l'' _ IH1 _ IH2];
    cbn [zsum fold_right]; try fold (zsum l); try fold (zsum l'); lia.
Qed.

Lemma group_total_cons (c : string) (d : date) (rows : list Row) :
  group_of c d rows <> [] ->
  group_total c d rows
  = Some {| Country := c; Date := d;
            Confirmed := wrap64 (zsum (map Confirmed (group_of c d rows)));
            Deaths := wrap64 (zsum (map Deaths (group_of c d rows))) |}.
Proof.
  unfold group_total. destruct (group_of c d rows); [congruence | reflexivity].
Qed.

Lemma group_total_nil (c : string) (d : date) (rows : list Row) :
  group_of c d rows = [] -> group_total c d rows = None.
Proof. unfold group_total. now intros ->. Qed.

(** What [groupby_sum] holds for a key: nothing when the key does not occur,
    the totals of the group when it does. *)
Lemma find_groupby_sum (c : string) (d : date) (rows : list Row) :
  find_key c d (groupby_sum rows) = group_total c d rows.
Proof.
  induction rows as [| r rows IH] using rev_ind; [reflexivity | ].
  rewrite groupby_sum_snoc.
  destruct (same_key c d r) eqn:E.
  - pose proof E as E'. apply same_key_spec in E'. destruct E' as [<- <-].
    rewrite find_add_row_same by apply groupby_sum_sorted.
    rewrite IH. clear IH.
    assert (Eg : group_of (Country r) (Date r) (rows ++ [r])
                 = group_of (Country r) (Date r) rows ++ [r]).
    { unfold group_of. rewrite filter_app. cbn [filter]. now rewrite E. }
    rewrite (group_total_cons _ _ (rows ++ [r]))
      by (rewrite Eg; now destruct (group_of _ _ rows)).
    rewrite Eg, !map_app, !zsum_app. cbn [map zsum fold_right].
    unfold group_total.
    destruct (group_of (Country r) (Date r) rows) as [| g grp] eqn:Egr.
    + unfold add64. cbn [map zsum fold_right]. do 3 f_equal; lia.
    + cbn [Confirmed Deaths]. unfold add64. rewrite !wrap64_add_l.
      do 3 f_equal; lia.
  - rewrite find_add_row_other by assumption. rewrite IH.
    unfold group_total, group_of. rewrite filter_app. cbn [filter].
    now rewrite E, app_nil_r.
Qed.

(* ================================================================= *)
(** ** Frames in strict key order *)

Lemma find_key_head (a : Row) (l : list Row) :
  find_key (Country a) (Date a) (a :: l) = Some a.
Proof. unfold find_key. cbn [find]. now rewrite same_key_self. Qed.

Lemma find_key_sorted_in (l : list Row) (g : Row) :
  StronglySorted row_lt l -> In g l -> find_key (Country g) (Date g) l = Some g.
Proof.
  induction 1 as [| a l Hs IH Hall]; intros Hin; [destruct Hin | ].
  destruct Hin as [-> | Hin]; [apply find_key_head | ].
  unfold find_key. cbn [find].
  rewrite Forall_forall in Hall. pose proof (Hall g Hin) as Hag.
  destruct (same_key (Country g) (Date g) a) eqn:E.
  - apply same_key_spec in E. destruct E as [Ec Ed].
    apply row_lt_not_same in Hag. rewrite Ec, Ed, same_key_self in Hag.
    discriminate.
  - now apply IH.
Qed.

Lemma find_key_in (c : string) (d : date) (l : list Row) (g : Row) :
  find_key c d l = Some g -> In g l /\ Country g = c /\ Date g = d.
Proof.
  unfold find_key. intros H. apply find_some in H. destruct H as [Hin Hk].
  apply same_key_spec in Hk. tauto.
Qed.

Lemma find_key_none (c : string) (d : date) (l : list Row) :
  find_key c d l = None <-> ~ In (c, d) (map key_of l).
Proof.
  unfold find_key. split.
  - intros H Hin. apply in_map_iff in Hin. destruct Hin as (g & Hk & Hin).
    pose proof (find_none _ _ H g Hin) as Hf.
    unfold key_of in Hk. injection Hk as Hc Hd.
    assert (same_key c d g = true) by now apply same_key_spec.
    congruence.
  - intros Hn. destruct (find (same_key c d) l) as [g | ] eqn:E; [ | reflexivity].
    exfalso. apply Hn. apply find_some in E. destruct E as [Hin Hk].
    apply same_key_spec in Hk. destruct Hk as [<- <-].
    apply in_map_iff. now exists g.
Qed.

Lemma find_key_some (c : string) (d : date) (l : list Row) :
  find_key c d l <> None <-> In (c, d) (map key_of l).
Proof.
  split.
  - destruct (find_key c d l) as [g | ] eqn:E; [intros _ | congruence].
    apply find_key_in in E. destruct E as (Hin & <- & <-).
    apply in_map_iff. now exists g.
  - intros Hin Hn. apply find_key_none in Hn. contradiction.
Qed.

Lemma sorted_keys_NoDup (l : list Row) :
  StronglySorted row_lt l -> NoDup (map key_of l).
Proof.
  induction 1 as [| a l Hs IH Hall]; cbn [map]; constructor; [ | assumption].
  intros Hin. apply in_map_iff in Hin. destruct Hin as (g & Hk & Hin).
  rewrite Forall_forall in Hall. pose proof (Hall g Hin) as Hag.
  apply row_lt_not_same in Hag.
  unfold key_of in Hk. injection Hk as Hc Hd.
  rewrite <- Hc, <- Hd, same_key_self in Hag. discriminate.
Qed.

(** Two frames in strict key order that answer every lookup alike are the
    same frame. *)
Lemma sorted_frames_ext (l1 l2 : list Row) :
  StronglySorted row_lt l1 -> StronglySorted row_lt l2 ->
  (forall c d, find_key c d l1 = find_key c d l2) ->
  l1 = l2.
Proof.
  intros H1. revert l2. induction H1 as [| a l1 Hs1 IH Hall1]; intros l2 H2 Hext.
  - destruct l2 as [| b l2]; [reflexivity | ].
    specialize (Hext (Country b) (Date b)). rewrite find_key_head in Hext.
    discriminate.
  - destruct H2 as [| b l2 Hs2 Hall2].
    + specialize (Hext (Country a) (Date a)). rewrite find_key_head in Hext.
      discriminate.
    + assert (Eab : a = b).
      { pose proof (Hext (Country a) (Date a)) as Ha. rewrite find_key_head in Ha.
        pose proof (Hext (Country b) (Date b)) as Hb. rewrite find_key_head in Hb.
        symmetry in Ha. unfold find_key in Ha, Hb. cbn [find] in Ha, Hb.
        destruct (same_key (Country a) (Date a) b) eqn:Eab; [congruence | ].
        destruct (same_key (Country b) (Date b) a) eqn:Eba; [congruence | ].
        apply find_some in Ha, Hb. destruct Ha as [Ha _], Hb as [Hb _].
        rewrite Forall_forall in Hall1, Hall2.
        pose proof (Hall1 b Hb) as Lab. pose proof (Hall2 a Ha) as Lba.
        pose proof (row_lt_trans _ _ _ Lab Lba) as Laa.
        apply row_lt_not_same in Laa. rewrite same_key_self in Laa. discriminate. }
      subst b. f_equal. apply IH; [assumption | ].
      intros c d. specialize (Hext c d). unfold find_key in *. cbn [find] in Hext.
      destruct (same_key c d a) eqn:E; [ | exact Hext].
      apply same_key_spec in E. destruct E as [Ec Ed].
      fold (find_key c d l1). fold (find_key c d l2).
      rewrite (find_key_above c d a l1 Hall1 Ec Ed).
      rewrite (find_key_above c d a l2 Hall2 Ec Ed). reflexivity.
Qed.

Lemma group_of_sorted (c : string) (d : date) (l : list Row) :
  StronglySorted row_lt l ->
  group_of c d l = match find_key c d l with Some g => [g] | None => [] end.
Proof.
  unfold group_of, find_key.
  induction 1 as [| a l Hs IH Hall]; [reflexivity | ].
  cbn [filter find]. destruct (same_key c d a) eqn:E; [ | exact IH].
  apply same_key_spec in E. destruct E as [Ec Ed].
  pose proof (find_key_above c d a l Hall Ec Ed) as Hn. unfold find_key in Hn.
  rewrite Hn in IH. now rewrite IH.
Qed.

Lemma groupby_sum_int64 (rows : list Row) (g : Row) :
  In g (groupby_sum rows) -> int64 (Confirmed g) /\ int64 (Deaths g).
Proof.
  intros Hin.
  pose proof (find_key_sorted_in _ _ (groupby_sum_sorted rows) Hin) as Hf.
  rewrite find_groupby_sum in Hf. unfold group_total in Hf.
  destruct (group_of _ _ rows); [discriminate | ].
  injection Hf as <-. cbn [Confirmed Deaths]. split; apply wrap64_int64.
Qed.

(** ** C3 *)

(** C3. The aggregated frame has exactly one row per (country, date) pair of
    its input and none for other pairs; in each row [Confirmed] and [Deaths]
    are the sums of the column over the input rows of the pair, reduced to
    [int64]: the very sums as soon as they fit. *)
Theorem groupby_sum_one_row_per_key (rows : list NormalizedRecord) :
  let out := groupby_sum rows in
  NoDup (map key_of out)
  /\ (forall k, In k (map key_of out) <-> In k (map key_of rows))
  /\ (forall g, In g out ->
      let grp := group_of (Country g) (Date g) rows in
      Confirmed g = wrap64 (zsum (map Confirmed grp))
      /\ Deaths g = wrap64 (zsum (map Deaths grp))
      /\ (int64 (zsum (map Confirmed grp)) -> Confirmed g = zsum (map Confirmed grp))
      /\ (int64 (zsum (map Deaths grp)) -> Deaths g = zsum (map Deaths grp))).
Proof.
  intros out. pose proof (groupby_sum_sorted rows) as Hs. fold out in Hs.
  split; [now apply sorted_keys_NoDup | split].
  - intros [c d].
    rewrite <- find_key_some. subst out.  rewrite find_groupby_sum.
    unfold group_total, group_of. split.
    + intros Hne. destruct (filter (same_key c d) rows) as [| g grp] eqn:E;
        [congruence | ].
      assert (Hg : In g (filter (same_key c d) rows)) by (rewrite E; now left).
      apply filter_In in Hg. destruct Hg as [Hg Hk].
      apply same_key_spec in Hk. destruct Hk as [<- <-].
      apply in_map_iff. now exists g.
    + intros Hin. apply in_map_iff in Hin. destruct Hin as (g & Hk & Hg).
      unfold key_of in Hk. injection Hk as Hc Hd.
      assert (Hf : In g (filter (same_key c d) rows)).
      { apply filter_In. split; [assumption | now apply same_key_spec]. }
      destruct (filter (same_key c d) rows); [destruct Hf | discriminate].
  - intros g Hg grp.
    pose proof (find_key_sorted_in _ _ Hs Hg) as Hf.
    subst out. rewrite find_groupby_sum in Hf. unfold group_total in Hf. fold grp in Hf.
    assert (Hv : Confirmed g = wrap64 (zsum (map Confirmed grp))
                 /\ Deaths g = wrap64 (zsum (map Deaths grp))).
    { destruct grp; [discriminate | ]. injection Hf as <-. auto. }
    destruct Hv as [Hc Hd]. repeat split; try assumption.
    + intros Hi. rewrite Hc. now apply wrap64_id.
    + intros Hi. rewrite Hd. now apply wrap64_id.
Qed.

(** The first day of the scenario: 100 + 10 and 5 + 1. *)
Lemma groupby_sum_one_row_per_key_witness :
  let g := mkRow "X" 737791 110 6 in
  In g (groupby_sum sample_rows)
  /\ Confirmed g = zsum (map Confirmed (group_of "X" 737791 sample_rows))
  /\ Deaths g = zsum (map Deaths (group_of "X" 737791 sample_rows)).
Proof.
  intros g.
  assert (Hin : In g (groupby_sum sample_rows)) by (vm_compute; left; reflexivity).
  destruct (groupby_sum_one_row_per_key sample_rows) as (_ & _ & H).
  destruct (H g Hin) as (_ & _ & Hc & Hd).
  split; [exact Hin | split].
  - apply Hc. vm_compute. split; discriminate.
  - apply Hd. vm_compute. split; discriminate.
Defined.

(** ** C9 *)

Lemma group_total_perm (c : string) (d : date) (rows rows' : list Row) :
  Permutation rows rows' -> group_total c d rows = group_total c d rows'.
Proof.
  intros HP.
  assert (Hg : Permutation (group_of c d rows) (group_of c d rows')).
  { unfold group_of. induction HP as [| x l l' _ IH | x y l | l l' l'' _ IH1 _ IH2];
      cbn [filter].
    - constructor.
    - destruct (same_key c d x); [now constructor | assumption].
    - destruct (same_key c d x), (same_key c d y);
        try apply Permutation_refl. apply perm_swap.
    - eapply Permutation_trans; eassumption. }
  destruct (group_of c d rows) as [| g grp] eqn:E.
  - apply Permutation_nil in Hg.
    rewrite (group_total_nil c d rows E), (group_total_nil c d rows' Hg). reflexivity.
  - rewrite <- E in Hg.
    rewrite (group_total_cons c d rows) by (rewrite E; discriminate).
    rewrite (group_total_cons c d rows').
    + rewrite (zsum_perm _ _ (Permutation_map Confirmed Hg)).
      rewrite (zsum_perm _ _ (Permutation_map Deaths Hg)). reflexivity.
    + intros E'. rewrite E' in Hg. apply Permutation_sym, Permutation_nil in Hg.
      rewrite E in Hg. discriminate.
Qed.

(** C9. The aggregation does not depend on the order of its input, and
    applied to its own output it returns that output. *)
Theorem groupby_sum_order_independent_idempotent (rows rows' : list NormalizedRecord) :
  Permutation rows rows' ->
  groupby_sum rows = groupby_sum rows'
  /\ groupby_sum (groupby_sum rows) = groupby_sum rows.
Proof.
  intros HP. split.
  - apply sorted_frames_ext; try apply groupby_sum_sorted.
    intros c d. rewrite !find_groupby_sum. now apply group_total_perm.
  - apply sorted_frames_ext; try apply groupby_sum_sorted.
    intros c d. rewrite find_groupby_sum.
    pose proof (groupby_sum_sorted rows) as Hs.
    unfold group_total. rewrite (group_of_sorted c d _ Hs).
    destruct (find_key c d (groupby_sum rows)) as [g | ] eqn:E; [ | reflexivity].
    apply find_key_in in E. destruct E as (Hin & <- & <-).
    destruct (groupby_sum_int64 rows g Hin) as [Hc Hd].
    cbn [map zsum fold_right]. rewrite !Z.add_0_r, !wrap64_id by assumption.
    now destruct g.
Qed.

(** The rows of the scenario, read backwards. *)
Lemma groupby_sum_order_independent_idempotent_witness :
  groupby_sum sample_rows = groupby_sum (rev sample_rows)
  /\ groupby_sum (groupby_sum sample_rows) = groupby_sum sample_rows.
Proof.
  exact (groupby_sum_order_independent_idempotent sample_rows (rev sample_rows)
           (Permutation_rev sample_rows)).
Defined.

(* ================================================================= *)
(** ** The filter and the sort *)

Lemma insert_by_date_perm (r : DerivedRecord) (l : list DerivedRecord) :
  Permutation (insert_by_date r l) (r :: l).
Proof.
  induction l as [| x l IH]; cbn [insert_by_date]; [reflexivity | ].
  destruct (Date (daily r) <=? Date (daily x)); [reflexivity | ].
  rewrite IH. apply perm_swap.
Qed.

Lemma sort_values_Date_perm (l : list DerivedRecord) :
  Permutation (sort_values_Date l) l.
Proof.
  induction l as [| r l IH]; cbn [sort_values_Date fold_right]; [reflexivity | ].
  fold (sort_values_Date l). rewrite insert_by_date_perm. now constructor.
Qed.

Lemma insert_by_date_sorted (r : DerivedRecord) (l : list DerivedRecord) :
  StronglySorted date_le l -> StronglySorted date_le (insert_by_date r l).
Proof.
  induction 1 as [| x l Hs IH Hall]; cbn [insert_by_date].
  - repeat constructor.
  - destruct (Z.leb_spec (Date (daily r)) (Date (daily x))) as [Hle | Hgt].
    + constructor; [now constructor | ].
      constructor; [exact Hle | ].
      eapply Forall_impl; [ | exact Hall].
      intros y Hy. unfold date_le in *. eapply Z.le_trans; eassumption.
    + constructor; [assumption | ].
      apply (Permutation_Forall (Permutation_sym (insert_by_date_perm r l))).
      constructor; [ | assumption].
      unfold date_le. apply Z.lt_le_incl. exact Hgt.
Qed.

Lemma sort_values_Date_sorted (l : list DerivedRecord) :
  StronglySorted date_le (sort_values_Date l).
Proof.
  induction l as [| r l IH]; cbn [sort_values_Date fold_right]; [constructor | ].
  now apply insert_by_date_sorted.
Qed.

Lemma in_selection_spec (c : string) (s e : date) (r : DerivedRecord) :
  in_selection c s e r = true
  <-> Country (daily r) = c /\ s <= Date (daily r) <= e.
Proof.
  unfold in_selection.
  rewrite !andb_true_iff, String.eqb_eq, !Z.leb_le. tauto.
Qed.

Lemma filtered_In (data : list DerivedRecord) (c : string) (s e : date)
  (r : DerivedRecord) :
  In r (filtered data c s e)
  <-> In r data /\ Country (daily r) = c /\ s <= Date (daily r) <= e.
Proof.
  unfold filtered. rewrite <- in_selection_spec, <- filter_In.
  split; apply Permutation_in;
    [ | apply Permutation_sym]; apply sort_values_Date_perm.
Qed.

(** ** C5 *)

(** C5. A row is in the series of a query exactly when it is a row of the
    dataset whose country is the queried one and whose date lies between the
    two bounds, both included; the series holds the selected rows, each as
    often as the dataset does, in ascending date order. *)
Theorem query_series_filter_sorted (data : list DerivedRecord) (country : string)
  (startDate endDate : date) :
  let rows := series (query data country startDate endDate) in
  (forall r, In r rows
             <-> In r data /\ Country (daily r) = country
                 /\ startDate <= Date (daily r) <= endDate)
  /\ Permutation rows (filter (in_selection country startDate endDate) data)
  /\ StronglySorted date_le rows.
Proof.
  cbn [query series]. split; [ | split].
  - intros r. apply filtered_In.
  - apply sort_values_Date_perm.
  - apply sort_values_Date_sorted.
Qed.

(** The scenario, restricted to its first day. *)
Lemma query_series_filter_sorted_witness :
  let rows := series (query sample_data "X" 737791 737791) in
  (forall r, In r rows
             <-> In r sample_data /\ Country (daily r) = "X"%string
                 /\ 737791 <= Date (daily r) <= 737791)
  /\ Permutation rows (filter (in_selection "X" 737791 737791) sample_data)
  /\ StronglySorted date_le rows.
Proof. exact (query_series_filter_sorted sample_data "X" 737791 737791). Defined.

(** *** The sort does not depend on the algorithm *)

Lemma same_date_same_row (l : list DerivedRecord) (x y : DerivedRecord) :
  NoDup (map (fun r => Date (daily r)) l) ->
  In x l -> In y l -> Date (daily x) = Date (daily y) -> x = y.
Proof.
  induction l as [| a l IH]; cbn [map]; intros Hnd Hx Hy Hf; [destruct Hx | ].
  inversion Hnd as [| ? ? Hna Hnd']; subst.
  destruct Hx as [-> | Hx], Hy as [-> | Hy]; try reflexivity.
  - exfalso. apply Hna. rewrite Hf.
    now apply (in_map (fun r => Date (daily r))).
  - exfalso. apply Hna. rewrite <- Hf.
    now apply (in_map (fun r => Date (daily r))).
  - now apply IH.
Qed.

Lemma date_sorted_unique (l1 l2 : list DerivedRecord) :
  NoDup (map (fun r => Date (daily r)) l1) ->
  Permutation l1 l2 ->
  StronglySorted date_le l1 -> StronglySorted date_le l2 ->
  l1 = l2.
Proof.
  revert l2. induction l1 as [| a t1 IH]; intros l2 Hnd HP H1 H2.
  - apply Permutation_nil in HP. now subst.
  - destruct l2 as [| b t2].
    + apply Permutation_sym, Permutation_nil in HP. discriminate.
    + assert (Eab : a = b).
      { apply (same_date_same_row (a :: t1)); trivial.
        - now left.
        - apply (Permutation_in _ (Permutation_sym HP)). now left.
        - inversion H1 as [| ? ? _ Ha]; subst. inversion H2 as [| ? ? _ Hb]; subst.
          rewrite Forall_forall in Ha, Hb.
          assert (Hba : In b (a :: t1))
            by (apply (Permutation_in _ (Permutation_sym HP)); now left).
          assert (Hab : In a (b :: t2)) by (apply (Permutation_in _ HP); now left).
          assert (date_le a b) by (destruct Hba as [-> | Hb']; [apply Z.le_refl | auto]).
          assert (date_le b a) by (destruct Hab as [-> | Ha']; [apply Z.le_refl | auto]).
          unfold date_le in *. now apply Z.le_antisymm. }
      subst b. f_equal. apply IH.
      * cbn [map] in Hnd. now inversion Hnd.
      * now apply Permutation_cons_inv in HP.
      * now inversion H1.
      * now inversion H2.
Qed.

Lemma selection_keys_NoDup (sel : DerivedRecord -> bool) (l : list DerivedRecord) :
  NoDup (map (fun r => key_of (daily r)) l) ->
  NoDup (map (fun r => key_of (daily r)) (filter sel l)).
Proof.
  induction l as [| a l IH]; cbn [map filter]; intros Hnd; [constructor | ].
  inversion Hnd as [| ? ? Hna Hnd']; subst.
  destruct (sel a); [ | now apply IH].
  cbn [map]. constructor; [ | now apply IH].
  intros Hin. apply Hna. apply in_map_iff in Hin. destruct Hin as (x & Hx & Hin).
  apply filter_In in Hin. rewrite <- Hx.
  apply (in_map (fun r => key_of (daily r))). tauto.
Qed.

(** In the dataset of the script the rows of one country have pairwise
    distinct dates. *)
Lemma load_data_dates_distinct (to_datetime : list string -> string -> option date)
  (raw : list RawRecord) (c : string) (s e : date) :
  NoDup (map (fun r => Date (daily r))
           (filter (in_selection c s e) (load_data to_datetime raw))).
Proof.
  unfold load_data, derive.
  set (agg := groupby_sum (normalize to_datetime raw)).
  pose proof (sorted_keys_NoDup agg (groupby_sum_sorted _)) as Hk.
  assert (Hk' : NoDup (map (fun r => key_of (daily r)) (map add_features agg))).
  { rewrite map_map. cbn [add_features daily]. exact Hk. }
  apply (selection_keys_NoDup (in_selection c s e)) in Hk'.
  set (rows := filter (in_selection c s e) (map add_features agg)) in *.
  assert (Hc : forall r, In r rows -> Country (daily r) = c).
  { intros r Hr. apply filter_In in Hr. destruct Hr as [_ Hr].
    apply in_selection_spec in Hr. tauto. }
  clearbody rows. clear Hk. induction rows as [| r rows IH]; [constructor | ].
  cbn [map] in *. inversion Hk' as [| ? ? Hna Hnd]; subst.
  constructor.
  - intros Hin. apply Hna. apply in_map_iff in Hin. destruct Hin as (x & Hx & Hin).
    apply in_map_iff. exists x. split; [ | assumption].
    unfold key_of. rewrite Hx. f_equal.
    rewrite (Hc x), (Hc r); auto. now left. now right.
  - apply IH; [assumption | ]. intros x Hx. apply Hc. now right.
Qed.

(** Whatever routine sorts the selection by date, on the dataset of the
    script it returns the frame that the insertion sort returns. *)
Lemma sort_values_any_algorithm
  (sort : list DerivedRecord -> list DerivedRecord)
  (to_datetime : list string -> string -> option date) (raw : list RawRecord)
  (c : string) (s e : date) :
  (forall l, Permutation (sort l) l) ->
  (forall l, StronglySorted date_le (sort l)) ->
  sort (filter (in_selection c s e) (load_data to_datetime raw))
  = filtered (load_data to_datetime raw) c s e.
Proof.
  intros Hperm Hsorted. unfold filtered.
  set (sel := filter (in_selection c s e) (load_data to_datetime raw)).
  apply date_sorted_unique.
  - assert (HP : Permutation (map (fun r => Date (daily r)) sel)
                   (map (fun r => Date (daily r)) (sort sel)))
      by (apply Permutation_map, Permutation_sym, Hperm).
    apply (Permutation_NoDup HP). apply load_data_dates_distinct.
  - rewrite Hperm. symmetry. apply sort_values_Date_perm.
  - apply Hsorted.
  - apply sort_values_Date_sorted.
Qed.

(* ================================================================= *)
(** ** The KPIs *)

Lemma fold_max_spec (l : list Z) (a : Z) :
  In (fold_left Z.max l a) (a :: l)
  /\ (forall x, In x (a :: l) -> x <= fold_left Z.max l a).
Proof.
  revert a. induction l as [| y l IH]; intros a; cbn [fold_left].
  - split; [now left | ]. intros x [<- | []]. lia.
  - destruct (IH (Z.max a y)) as [Hin Hub]. split.
    + destruct Hin as [Hm | Hin]; [ | now right; right].
      rewrite <- Hm. destruct (Z.max_spec a y) as [[_ ->] | [_ ->]];
        [right; now left | now left].
    + intros x Hx.
      assert (Hmax : Z.max a y <= fold_left Z.max l (Z.max a y))
        by (apply Hub; now left).
      destruct Hx as [<- | [<- | Hx]]; [lia | lia | ].
      apply Hub. now right.
Qed.

Lemma column_max_spec (xs : list Z) :
  xs <> [] -> In (column_max xs) xs /\ (forall x, In x xs -> x <= column_max xs).
Proof.
  destruct xs as [| a l]; [congruence | intros _].
  cbn [column_max]. apply fold_max_spec.
Qed.

Lemma sorted_last_max (l : list DerivedRecord) (d r : DerivedRecord) :
  StronglySorted date_le l -> In r l -> date_le r (last l d).
Proof.
  induction 1 as [| x l Hs IH Hall]; intros Hin; [destruct Hin | ].
  destruct l as [| y l'].
  - destruct Hin as [<- | []]. unfold date_le. cbn [last]. lia.
  - change (last (x :: y :: l') d) with (last (y :: l') d).
    destruct Hin as [<- | Hin]; [ | now apply IH].
    rewrite Forall_forall in Hall.
    assert (Hy : In (last (y :: l') d) (y :: l')).
    { clear. revert y. induction l' as [| z l' IH]; intros y; [now left | ].
      change (last (y :: z :: l') d) with (last (z :: l') d). right. apply IH. }
    now apply Hall.
Qed.

Lemma max_of_column {A} (f : A -> Z) (rows : list A) :
  rows <> [] ->
  (exists r, In r rows /\ f r = column_max (map f rows))
  /\ (forall r, In r rows -> f r <= column_max (map f rows)).
Proof.
  intros Hne.
  destruct (column_max_spec (map f rows)) as [Hin Hub].
  { destruct rows; [congruence | discriminate]. }
  split.
  - apply in_map_iff in Hin. destruct Hin as (r & Hr & Hin). now exists r.
  - intros r Hr. apply Hub. now apply in_map.
Qed.

Lemma kpis_of_cons (r0 : DerivedRecord) (rest : list DerivedRecord) :
  let rows := r0 :: rest in
  kpis_of rows
  = {| total_cases := column_max (map (fun r => Confirmed (daily r)) rows);
       total_deaths := column_max (map (fun r => Deaths (daily r)) rows);
       total_recovered := column_max (map Recovered rows);
       active_cases := Active (last rows r0) |}.
Proof. reflexivity. Qed.

(** ** C4 *)

(** C4. When the series of a query is not empty, the first three KPIs are the
    maxima of the columns [Confirmed], [Deaths] and [Recovered] over the
    series (a value of the column that no row exceeds), and the fourth is
    the [Active] value of the last row of the series, whose date no row of
    the series exceeds. *)
Theorem query_kpis_max_and_last (data : list DerivedRecord) (country : string)
  (startDate endDate : date) :
  let q := query data country startDate endDate in
  series q <> [] ->
  ((exists r, In r (series q) /\ Confirmed (daily r) = total_cases (kpis q))
   /\ (forall r, In r (series q) -> Confirmed (daily r) <= total_cases (kpis q)))
  /\ ((exists r, In r (series q) /\ Deaths (daily r) = total_deaths (kpis q))
      /\ (forall r, In r (series q) -> Deaths (daily r) <= total_deaths (kpis q)))
  /\ ((exists r, In r (series q) /\ Recovered r = total_recovered (kpis q))
      /\ (forall r, In r (series q) -> Recovered r <= total_recovered (kpis q)))
  /\ (exists front final,
        series q = front ++ [final]
        /\ active_cases (kpis q) = Active final
        /\ (forall r, In r (series q) -> Date (daily r) <= Date (daily final))).
Proof.
  cbn [query series kpis]. intros Hne.
  pose proof (sort_values_Date_sorted
                (filter (in_selection country startDate endDate) data)) as Hs.
  fold (filtered data country startDate endDate) in Hs.
  set (rows := filtered data country startDate endDate) in *.
  destruct rows as [| r0 rest] eqn:E; [congruence | ].
  rewrite kpis_of_cons. cbv zeta. rewrite <- E in *.
  cbn [total_cases total_deaths total_recovered active_cases].
  repeat split.
  - apply (max_of_column (fun r => Confirmed (daily r))). assumption.
  - apply (max_of_column (fun r => Confirmed (daily r))). assumption.
  - apply (max_of_column (fun r => Deaths (daily r))). assumption.
  - apply (max_of_column (fun r => Deaths (daily r))). assumption.
  - apply (max_of_column Recovered). assumption.
  - apply (max_of_column Recovered). assumption.
  - exists (removelast rows), (last rows r0). split; [ | split].
    + now apply app_removelast_last.
    + reflexivity.
    + intros r Hr. now apply (sorted_last_max rows r0 r).
Qed.

(** The scenario over its two days. *)
Lemma query_kpis_max_and_last_witness :
  let q := query sample_data "X" 737791 737792 in
  total_cases (kpis q) = 110
  /\ (forall r, In r (series q) -> Confirmed (daily r) <= total_cases (kpis q))
  /\ (exists front final,
        series q = front ++ [final] /\ active_cases (kpis q) = Active final).
Proof.
  intros q.
  destruct (query_kpis_max_and_last sample_data "X" 737791 737792)
    as ((_ & Hc) & _ & _ & (front & final & Hs & Ha & _)).
  - vm_compute. discriminate.
  - split; [vm_compute; reflexivity | split].
    + exact Hc.
    + exists front, final. split; assumption.
Defined.

(** ** C6: the empty series *)

Lemma filtered_nil_reversed (data : list DerivedRecord) (c : string) (s e : date) :
  e < s -> filtered data c s e = [].
Proof.
  intros Hrev. unfold filtered.
  replace (filter (in_selection c s e) data) with (@nil DerivedRecord);
    [reflexivity | ].
  symmetry. induction data as [| r data IH]; [reflexivity | ].
  cbn [filter]. destruct (in_selection c s e r) eqn:E; [ | exact IH].
  apply in_selection_spec in E. lia.
Qed.

(** *** The frame of a CSV without a timestamp that parses *)

Lemma normalize_rows_cons (read : string -> option date) (r : RawRecord)
  (rows : list RawRecord) :
  normalize_rows read (r :: rows)
  = normalize_row read r ++ normalize_rows read rows.
Proof. reflexivity. Qed.

Lemma normalize_rows_nil (read : string -> option date) (rows : list RawRecord) :
  normalize_rows read rows = [] <-> forallb (is_NaT read) rows = true.
Proof.
  induction rows as [| r rows IH]; [cbn; tauto | ].
  rewrite normalize_rows_cons. cbn [forallb].
  unfold normalize_row, is_NaT at 1.
  destruct (coerce_date read r); cbn [app andb].
  - split; discriminate.
  - exact IH.
Qed.

Lemma groupby_sum_nil (rows : list NormalizedRecord) :
  groupby_sum rows = [] <-> rows = [].
Proof.
  split; [ | intros ->; reflexivity].
  destruct rows as [| g rows]; [reflexivity | ]. intros H.
  pose proof (find_groupby_sum (Country g) (Date g) (g :: rows)) as Hf.
  rewrite H in Hf. cbn [find_key] in Hf.
  assert (Hne : group_of (Country g) (Date g) (g :: rows) <> []).
  { unfold group_of. cbn [filter]. rewrite same_key_self. discriminate. }
  rewrite (group_total_cons _ _ _ Hne) in Hf. discriminate.
Qed.

Lemma load_data_nil (to_datetime : list string -> string -> option date)
  (raw : list RawRecord) :
  load_data to_datetime raw = []
  <-> forallb (is_NaT (to_datetime (timestamps raw))) raw = true.
Proof.
  rewrite <- normalize_rows_nil. fold (normalize to_datetime raw).
  rewrite <- groupby_sum_nil. unfold load_data, derive.
  destruct (groupby_sum (normalize to_datetime raw)); cbn [map];
    split; congruence.
Qed.

Lemma dtype_of_dates_rows (read : string -> option date) (rows : list RawRecord) :
  dtype_of_dates (map read (timestamps rows))
  = match rows with
    | [] => Object
    | _ :: _ => if forallb (is_NaT read) rows then Datetime64 else Object
    end.
Proof.
  assert (H : forall l,
             forallb (fun d : option date =>
                        match d with None => true | Some _ => false end)
                     (map read (timestamps l))
             = forallb (is_NaT read) l).
  { induction l as [| x l IH]; [reflexivity | ].
    cbn [timestamps map forallb]. fold (timestamps l). rewrite IH.
    reflexivity. }
  destruct rows as [| r rows]; [reflexivity | ].
  unfold dtype_of_dates. rewrite H. reflexivity.
Qed.

(** A frame with a row has a [Date] column of dates. *)
Lemma data_frame_rows_dtype (to_datetime : list string -> string -> option date)
  (raw : list RawRecord) :
  records (data_frame to_datetime raw) <> [] ->
  Date_dtype (data_frame to_datetime raw) = Object.
Proof.
  cbn [records Date_dtype data_frame]. intros Hne.
  rewrite dtype_of_dates_rows. destruct raw as [| r raw]; [reflexivity | ].
  destruct (forallb (is_NaT (to_datetime (timestamps (r :: raw)))) (r :: raw))
    eqn:E; [ | reflexivity].
  apply load_data_nil in E. contradiction.
Qed.

(** C6, where the script departs from it. On a CSV that has rows, none with
    a timestamp that parses, the dataset is empty and the script goes on:
    both bounds of the date picker are 0001-01-01. Every query whose dates
    parse, reversed bounds included, then raises [TypeError] at the
    comparison of line 107: it does not return the empty series. *)
Theorem empty_dataset_query_raises
  (to_datetime : list string -> string -> option date)
  (strptime : string -> option date) (raw : list RawRecord)
  (country start_date_str end_date_str : string) (startDate endDate : date) :
  raw <> [] ->
  forallb (is_NaT (to_datetime (timestamps raw))) raw = true ->
  strptime (date_part start_date_str) = Some startDate ->
  strptime (date_part end_date_str) = Some endDate ->
  let data := data_frame to_datetime raw in
  records data = []
  /\ MIN_DATE data = Returned NaT_date
  /\ MAX_DATE data = Returned NaT_date
  /\ update_dashboard strptime data country start_date_str end_date_str
     = Raised TypeError.
Proof.
  intros Hrows Hnat Hs He data.
  assert (Hrec : records data = []) by (apply load_data_nil; exact Hnat).
  assert (Hdt : Date_dtype data = Datetime64).
  { subst data. cbn [Date_dtype data_frame]. rewrite dtype_of_dates_rows.
    destruct raw as [| r raw]; [congruence | ]. rewrite Hnat. reflexivity. }
  split; [exact Hrec | ].
  unfold MIN_DATE, MAX_DATE, update_dashboard.
  rewrite Hrec, Hdt, Hs, He. cbn [combine_empty]. repeat split.
Qed.

(** The CSV with one malformed row, asked with reversed bounds. *)
Lemma empty_dataset_query_raises_witness :
  MIN_DATE malformed_frame = Returned NaT_date
  /\ update_dashboard strptime_iso malformed_frame "X" "2021-01-02" "2021-01-01"
     = Raised TypeError.
Proof.
  destruct (empty_dataset_query_raises to_datetime_iso strptime_iso
              malformed_raw "X" "2021-01-02" "2021-01-01" 737792 737791)
    as (_ & Hmin & _ & Hq).
  - discriminate.
  - vm_compute. reflexivity.
  - vm_compute. reflexivity.
  - vm_compute. reflexivity.
  - split; [exact Hmin | exact Hq].
Defined.

(* ================================================================= *)
(** ** The country domain *)

Lemma unique_In (x : string) (l : list string) : In x (unique l) <-> In x l.
Proof.
  induction l as [| y l IH]; cbn [unique]; [tauto | ].
  cbn [In]. rewrite filter_In, IH, negb_true_iff, String.eqb_neq.
  destruct (string_dec y x) as [-> | Hne]; [tauto | ].
  split; [tauto | ]. intros [H | H]; [tauto | ]. right. split; [assumption | congruence].
Qed.

Lemma insert_string_In (x y : string) (l : list string) :
  In x (insert_string y l) <-> x = y \/ In x l.
Proof.
  induction l as [| z l IH]; cbn [insert_string].
  - cbn [In]. intuition congruence.
  - destruct (String.ltb y z); cbn [In]; [intuition congruence | ].
    rewrite IH. intuition congruence.
Qed.

Lemma sorted_strings_In (x : string) (l : list string) :
  In x (sorted_strings l) <-> In x l.
Proof.
  induction l as [| y l IH]; cbn [sorted_strings fold_right]; [tauto | ].
  fold (sorted_strings l). rewrite insert_string_In, IH. cbn [In].
  intuition congruence.
Qed.

Lemma listCountries_In (data : list DerivedRecord) (c : string) :
  In c (listCountries data) <-> exists r, In r data /\ Country (daily r) = c.
Proof.
  unfold listCountries. rewrite sorted_strings_In, unique_In, in_map_iff.
  split; intros (r & H1 & H2); exists r; tauto.
Qed.

(** ** C7 *)

(** C7, as stated, fails: for a country that the dataset does not hold the
    callback returns the empty result and raises nothing. *)
Lemma unknown_country_not_raised :
  ~ In "Atlantis"%string (listCountries (records sample_frame))
  /\ update_dashboard strptime_iso sample_frame "Atlantis" "2021-01-01" "2021-01-02"
     = Returned empty_result.
Proof.
  split; [ | vm_compute; reflexivity].
  intros H. vm_compute in H. destruct H as [H | []]. discriminate.
Qed.

(** C7, amended. On a dataset with at least one row, for a country outside
    [listCountries] and two dates that parse, the query returns the empty
    series with the four KPIs at 0, and raises nothing. *)
Theorem unknown_country_empty_result
  (to_datetime : list string -> string -> option date)
  (strptime : string -> option date) (raw : list RawRecord)
  (country start_date_str end_date_str : string) (startDate endDate : date) :
  let data := data_frame to_datetime raw in
  records data <> [] ->
  ~ In country (listCountries (records data)) ->
  strptime (date_part start_date_str) = Some startDate ->
  strptime (date_part end_date_str) = Some endDate ->
  update_dashboard strptime data country start_date_str end_date_str
  = Returned empty_result.
Proof.
  intros data Hrows Hout Hs He. unfold update_dashboard.
  rewrite Hs, He. subst data. rewrite (data_frame_rows_dtype _ _ Hrows).
  set (rows := records (data_frame to_datetime raw)) in *.
  unfold query.
  replace (filtered rows country startDate endDate) with (@nil DerivedRecord);
    [reflexivity | ].
  destruct (filtered rows country startDate endDate) as [| r rest] eqn:E;
    [reflexivity | ].
  exfalso. apply Hout. apply listCountries_In.
  assert (Hin : In r (filtered rows country startDate endDate))
    by (rewrite E; now left).
  apply filtered_In in Hin. exists r. tauto.
Qed.

(** The scenario, asked for a country it does not hold. *)
Lemma unknown_country_empty_result_witness :
  update_dashboard strptime_iso sample_frame "Atlantis" "2021-01-01T00:00:00"
    "2021-01-02"
  = Returned empty_result.
Proof.
  refine (unknown_country_empty_result to_datetime_iso strptime_iso sample_raw
            "Atlantis" "2021-01-01T00:00:00" "2021-01-02" 737791 737792
            _ _ _ _).
  - vm_compute. discriminate.
  - intros H. vm_compute in H. destruct H as [H | []]. discriminate.
  - vm_compute. reflexivity.
  - vm_compute. reflexivity.
Defined.

(* ================================================================= *)
(** ** C8 *)

(** C8, as stated, fails in its second half: two inputs that differ by a
    malformed row leave the same frame, and nothing else is kept, so that no
    function of what the script holds gives the number of excluded rows. *)
Lemma excluded_count_not_kept :
  load_data to_datetime_iso malformed_raw = load_data to_datetime_iso []
  /\ normalize to_datetime_iso malformed_raw = normalize to_datetime_iso []
  /\ excluded_count to_datetime_iso malformed_raw = 1%nat
  /\ excluded_count to_datetime_iso [] = 0%nat
  /\ ~ (exists observe : list NormalizedRecord -> nat,
          forall raw,
            observe (normalize to_datetime_iso raw)
            = excluded_count to_datetime_iso raw)
  /\ data_frame to_datetime_iso sample_raw = data_frame to_datetime_iso clean_raw
  /\ excluded_count to_datetime_iso sample_raw = 1%nat
  /\ excluded_count to_datetime_iso clean_raw = 0%nat
  /\ ~ (exists observe : DataFrame -> nat,
          forall raw,
            observe (data_frame to_datetime_iso raw)
            = excluded_count to_datetime_iso raw).
Proof.
  assert (Hframe : data_frame to_datetime_iso sample_raw
                   = data_frame to_datetime_iso clean_raw)
    by (vm_compute; reflexivity).
  split; [vm_compute; reflexivity | ].
  split; [vm_compute; reflexivity | ].
  split; [vm_compute; reflexivity | ].
  split; [vm_compute; reflexivity | ].
  split.
  - intros (observe & Hobs).
    pose proof (Hobs malformed_raw) as H1. pose proof (Hobs []) as H0.
    change (normalize to_datetime_iso malformed_raw)
      with (@nil NormalizedRecord) in H1.
    change (normalize to_datetime_iso []) with (@nil NormalizedRecord) in H0.
    change (excluded_count to_datetime_iso malformed_raw) with 1%nat in H1.
    change (excluded_count to_datetime_iso []) with 0%nat in H0.
    congruence.
  - split; [exact Hframe | ].
    split; [vm_compute; reflexivity | ].
    split; [vm_compute; reflexivity | ].
    intros (observe & Hobs).
    pose proof (Hobs sample_raw) as H1. pose proof (Hobs clean_raw) as H0.
    rewrite Hframe in H1.
    change (excluded_count to_datetime_iso sample_raw) with 1%nat in H1.
    change (excluded_count to_datetime_iso clean_raw) with 0%nat in H0.
    congruence.
Qed.

(** C8, amended. The normalizer keeps, in order and unchanged but for the
    date, exactly the rows whose timestamp parses, and drops the others:
    the kept and the excluded rows add up to the input. No count of the
    excluded rows is kept. *)
Theorem normalize_drops_unparsed
  (to_datetime : list string -> string -> option date) (raw : list RawRecord) :
  Forall2 (kept_as (to_datetime (timestamps raw)))
    (filter (fun r => negb (is_NaT (to_datetime (timestamps raw)) r)) raw)
    (normalize to_datetime raw)
  /\ (List.length (normalize to_datetime raw) + excluded_count to_datetime raw
      = List.length raw)%nat.
Proof.
  unfold excluded_count, normalize.
  generalize (to_datetime (timestamps raw)). intros read.
  induction raw as [| r raw [IH1 IH2]].
  - split; [constructor | reflexivity].
  - rewrite normalize_rows_cons. cbn [filter].
    assert (Hrow : normalize_row read r
                   = if is_NaT read r then [] else normalize_row read r)
      by (unfold normalize_row, is_NaT; destruct (coerce_date read r);
          reflexivity).
    destruct (is_NaT read r) eqn:E; cbn [negb].
    + rewrite Hrow. cbn [app List.length]. split; [exact IH1 | lia].
    + unfold is_NaT, coerce_date in E. unfold normalize_row, coerce_date.
      destruct (read (Last_Update r)) as [d | ] eqn:Ed; [ | discriminate].
      cbn [app List.length]. split; [ | lia].
      constructor; [ | exact IH1].
      unfold kept_as. cbn [Country Date Confirmed Deaths]. auto.
Qed.

(** The scenario: three rows kept, one excluded. *)
Lemma normalize_drops_unparsed_witness :
  Forall2 (kept_as (to_datetime_iso (timestamps sample_raw)))
    (filter (fun r => negb (is_NaT (to_datetime_iso (timestamps sample_raw)) r))
            sample_raw)
    (normalize to_datetime_iso sample_raw)
  /\ (List.length (normalize to_datetime_iso sample_raw)
      + excluded_count to_datetime_iso sample_raw
      = List.length sample_raw)%nat.
Proof. exact (normalize_drops_unparsed to_datetime_iso sample_raw). Defined.

(* ================================================================= *)
(** ** C10 *)

Lemma split_not_nil (sep : ascii) (s : string) : split sep s <> [].
Proof.
  destruct s as [| c s]; cbn [split]; [discriminate | ].
  destruct (Ascii.eqb c sep); [discriminate | ].
  destruct (split sep s); discriminate.
Qed.

Lemma date_part_cons (c : ascii) (s : string) :
  date_part (String c s)
  = if Ascii.eqb c "T" then EmptyString else String c (date_part s).
Proof.
  unfold date_part. cbn [split].
  destruct (Ascii.eqb c "T"); [reflexivity | ].
  pose proof (split_not_nil "T" s) as Hne.
  destruct (split "T" s); [congruence | reflexivity].
Qed.

Lemma date_part_app_T (a s : string) :
  date_part (a ++ String "T" s) = date_part a.
Proof.
  induction a as [| c a IH]; cbn [append].
  - rewrite date_part_cons. reflexivity.
  - rewrite !date_part_cons, IH. reflexivity.
Qed.

Lemma date_part_idem (a : string) : date_part (date_part a) = date_part a.
Proof.
  induction a as [| c a IH]; [reflexivity | ].
  rewrite date_part_cons. destruct (Ascii.eqb c "T") eqn:E; [reflexivity | ].
  rewrite date_part_cons, E, IH. reflexivity.
Qed.

Lemma date_part_without_T (a : string) :
  ~ In "T"%char (list_ascii_of_string a) -> date_part a = a.
Proof.
  induction a as [| c a IH]; [reflexivity | ].
  cbn [list_ascii_of_string In]. intros Hn. rewrite date_part_cons.
  destruct (Ascii.eqb_spec c "T") as [-> | _]; [tauto | ].
  rewrite IH by tauto. reflexivity.
Qed.

Lemma date_part_with_time_of (day : string) (time : option string) :
  ~ In "T"%char (list_ascii_of_string day) ->
  date_part (with_time day time) = day.
Proof.
  intros Hday. destruct time as [t | ]; cbn [with_time].
  - rewrite date_part_app_T. now apply date_part_without_T.
  - now apply date_part_without_T.
Qed.

(** C10. Of each date string the callback uses the day that precedes the
    first ['T'] and nothing else. For two days written without a ['T'],
    each alone or followed by ['T'] and any text: the call has the outcome
    of the call on the two bare days, which is decided by [strptime] on the
    days themselves; hence two calls that differ only after the separators
    have the same outcome. *)
Theorem update_dashboard_ignores_time (strptime : string -> option date)
  (data : DataFrame) (country start_day end_day : string)
  (t1 t2 : option string) :
  ~ In "T"%char (list_ascii_of_string start_day) ->
  ~ In "T"%char (list_ascii_of_string end_day) ->
  update_dashboard strptime data country
    (with_time start_day t1) (with_time end_day t2)
  = update_dashboard strptime data country start_day end_day
  /\ update_dashboard strptime data country start_day end_day
     = match strptime start_day, strptime end_day with
       | Some startDate, Some endDate =>
           match Date_dtype data with
           | Datetime64 => Raised TypeError
           | Object => Returned (query (records data) country startDate endDate)
           end
       | _, _ => Raised ValueError
       end
  /\ (forall t1' t2' : option string,
        update_dashboard strptime data country
          (with_time start_day t1) (with_time end_day t2)
        = update_dashboard strptime data country
            (with_time start_day t1') (with_time end_day t2')).
Proof.
  intros Hs He.
  assert (Hany : forall u1 u2,
             update_dashboard strptime data country
               (with_time start_day u1) (with_time end_day u2)
             = update_dashboard strptime data country start_day end_day).
  { intros u1 u2. unfold update_dashboard.
    rewrite !date_part_with_time_of by assumption.
    rewrite !date_part_without_T by assumption. reflexivity. }
  split; [apply Hany | split].
  - unfold update_dashboard. rewrite !date_part_without_T by assumption.
    destruct (strptime start_day); [ | reflexivity].
    destruct (strptime end_day); reflexivity.
  - intros t1' t2'. rewrite !Hany. reflexivity.
Qed.

(** A call with a time of day on the first date only, and a call with
    other times of day on both. *)
Lemma update_dashboard_ignores_time_witness :
  update_dashboard strptime_iso sample_frame "X"
    "2021-01-01T00:00:00" "2021-01-02"
  = update_dashboard strptime_iso sample_frame "X"
      "2021-01-01T12:30:00" "2021-01-02T23:59:59".
Proof.
  refine (proj2 (proj2 (update_dashboard_ignores_time strptime_iso sample_frame
                          "X" "2021-01-01" "2021-01-02"
                          (Some "00:00:00"%string) None _ _))
            (Some "12:30:00"%string) (Some "23:59:59"%string)).
  - intros H. cbn in H. intuition discriminate.
  - intros H. cbn in H. intuition discriminate.
Defined.

Example date_part_with_time : date_part "2021-01-01T00:00:00" = "2021-01-01"%string.
Proof. reflexivity. Qed.

Example date_part_bare : date_part "2021-01-01" = "2021-01-01"%string.
Proof. reflexivity. Qed.

(* ================================================================= *)
(** * Further facts about the script *)

(* ================================================================= *)
(** ** The date picker *)

Lemma fold_min_spec (l : list Z) (a : Z) :
  In (fold_left Z.min l a) (a :: l)
  /\ (forall x, In x (a :: l) -> fold_left Z.min l a <= x).
Proof.
  revert a. induction l as [| y l IH]; intros a; cbn [fold_left].
  - split; [now left | ]. intros x [<- | []]. lia.
  - destruct (IH (Z.min a y)) as [Hin Hlb]. split.
    + destruct Hin as [Hm | Hin]; [ | now right; right].
      rewrite <- Hm. destruct (Z.min_spec a y) as [[_ ->] | [_ ->]];
        [now left | right; now left].
    + intros x Hx.
      assert (Hmin : fold_left Z.min l (Z.min a y) <= Z.min a y)
        by (apply Hlb; now left).
      destruct Hx as [<- | [<- | Hx]]; [lia | lia | ].
      apply Hlb. now right.
Qed.

Lemma MIN_DATE_spec (data : DataFrame) (lo : date) :
  MIN_DATE data = Returned lo ->
  (records data <> [] -> exists r, In r (records data) /\ Date (daily r) = lo)
  /\ (forall r, In r (records data) -> lo <= Date (daily r)).
Proof.
  unfold MIN_DATE. destruct (records data) as [| r0 rest].
  - intros _. split; [congruence | intros r []].
  - intros H. injection H as <-. cbn [map column_min].
    destruct (fold_min_spec (map (fun r => Date (daily r)) rest)
                (Date (daily r0))) as [Hin Hlb].
    change (Date (daily r0) :: map (fun r => Date (daily r)) rest)
      with (map (fun r => Date (daily r)) (r0 :: rest)) in Hin, Hlb.
    split.
    + intros _. apply in_map_iff in Hin. destruct Hin as (r & Hr & Hin).
      now exists r.
    + intros r Hr. apply Hlb. now apply (in_map (fun r => Date (daily r))).
Qed.

Lemma MAX_DATE_spec (data : DataFrame) (hi : date) :
  MAX_DATE data = Returned hi ->
  (records data <> [] -> exists r, In r (records data) /\ Date (daily r) = hi)
  /\ (forall r, In r (records data) -> Date (daily r) <= hi).
Proof.
  unfold MAX_DATE. destruct (records data) as [| r0 rest].
  - intros _. split; [congruence | intros r []].
  - intros H. injection H as <-.
    destruct (max_of_column (fun r => Date (daily r)) (r0 :: rest))
      as [Hin Hub]; [discriminate | ].
    split; [intros _; exact Hin | exact Hub].
Qed.

(** X1. On a dataset with at least one row the two bounds of the date picker
    exist, each is the date of some row, and every row lies between them. *)
Theorem date_picker_bounds (data : DataFrame) :
  records data <> [] ->
  exists lo hi,
    MIN_DATE data = Returned lo /\ MAX_DATE data = Returned hi
    /\ lo <= hi
    /\ (exists r, In r (records data) /\ Date (daily r) = lo)
    /\ (exists r, In r (records data) /\ Date (daily r) = hi)
    /\ (forall r, In r (records data) -> lo <= Date (daily r) <= hi).
Proof.
  intros Hne.
  assert (Hlo : exists lo, MIN_DATE data = Returned lo).
  { unfold MIN_DATE. destruct (records data); [congruence | eexists; reflexivity]. }
  assert (Hhi : exists hi, MAX_DATE data = Returned hi).
  { unfold MAX_DATE. destruct (records data); [congruence | eexists; reflexivity]. }
  destruct Hlo as [lo Hlo], Hhi as [hi Hhi]. exists lo, hi.
  destruct (MIN_DATE_spec data lo Hlo) as [Hlo1 Hlo2].
  destruct (MAX_DATE_spec data hi Hhi) as [Hhi1 Hhi2].
  destruct (Hlo1 Hne) as (rlo & Hrlo & Elo).
  split; [exact Hlo | split; [exact Hhi | split; [ | split; [ | split]]]].
  - pose proof (Hhi2 rlo Hrlo) as H. rewrite Elo in H. exact H.
  - now exists rlo.
  - now apply Hhi1.
  - intros r Hr. split; [now apply Hlo2 | now apply Hhi2].
Qed.

(** The scenario: its two days. *)
Lemma date_picker_bounds_witness :
  MIN_DATE sample_frame = Returned 737791
  /\ MAX_DATE sample_frame = Returned 737792.
Proof.
  destruct (date_picker_bounds sample_frame) as (lo & hi & Hlo & Hhi & _);
    [vm_compute; discriminate | ].
  rewrite Hlo, Hhi. vm_compute in Hlo, Hhi.
  injection Hlo as <-. injection Hhi as <-. split; reflexivity.
Defined.

Lemma filter_ext_in_bool {A} (f g : A -> bool) (l : list A) :
  (forall x, In x l -> f x = g x) -> filter f l = filter g l.
Proof.
  induction l as [| a l IH]; intros H; [reflexivity | ].
  cbn [filter]. rewrite (H a) by now left.
  rewrite IH by (intros x Hx; apply H; now right). reflexivity.
Qed.

(** X2. Over the default range of the date picker, from [MIN_DATE] to
    [MAX_DATE], the date filter removes nothing: the series holds all the
    rows of the country; and for a country that the dropdown offers it is
    not empty. *)
Theorem default_range_selects_country (data : DataFrame)
  (country : string) (lo hi : date) :
  MIN_DATE data = Returned lo -> MAX_DATE data = Returned hi ->
  Permutation (series (query (records data) country lo hi))
    (filter (of_country country) (records data))
  /\ (In country (listCountries (records data)) ->
      series (query (records data) country lo hi) <> []).
Proof.
  intros Hlo Hhi.
  destruct (MIN_DATE_spec data lo Hlo) as [_ Hlb].
  destruct (MAX_DATE_spec data hi Hhi) as [_ Hub].
  set (rows := records data) in *.
  assert (HP : Permutation (series (query rows country lo hi))
                 (filter (of_country country) rows)).
  { cbn [query series]. unfold filtered. rewrite sort_values_Date_perm.
    rewrite (filter_ext_in_bool (in_selection country lo hi) (of_country country));
      [reflexivity | ].
    intros r Hr. unfold in_selection, of_country.
    pose proof (Hlb r Hr). pose proof (Hub r Hr).
    replace (lo <=? Date (daily r)) with true by (symmetry; now apply Z.leb_le).
    replace (Date (daily r) <=? hi) with true by (symmetry; now apply Z.leb_le).
    now rewrite !andb_true_r. }
  split; [exact HP | ].
  intros Hc Hnil. rewrite Hnil in HP. apply Permutation_nil in HP.
  apply listCountries_In in Hc. destruct Hc as (r & Hr & Hcr).
  assert (Hin : In r (filter (of_country country) rows)).
  { apply filter_In. split; [assumption | ]. unfold of_country.
    now apply String.eqb_eq. }
  rewrite HP in Hin. destruct Hin.
Qed.

(** The scenario over its default range. *)
Lemma default_range_selects_country_witness :
  Permutation (series (query sample_data "X" 737791 737792))
    (filter (of_country "X") sample_data)
  /\ series (query sample_data "X" 737791 737792) <> [].
Proof.
  destruct (default_range_selects_country sample_frame "X" 737791 737792)
    as [HP Hne]; try (vm_compute; reflexivity).
  split; [exact HP | ]. apply Hne. vm_compute. left. reflexivity.
Defined.

(* ================================================================= *)
(** ** The country dropdown *)

Lemma unique_NoDup (l : list string) : NoDup (unique l).
Proof.
  induction l as [| x l IH]; cbn [unique]; constructor.
  - intros Hin. apply filter_In in Hin. destruct Hin as [_ Hin].
    rewrite String.eqb_refl in Hin. discriminate.
  - now apply NoDup_filter.
Qed.

Lemma insert_string_perm (x : string) (l : list string) :
  Permutation (insert_string x l) (x :: l).
Proof.
  induction l as [| y l IH]; cbn [insert_string]; [reflexivity | ].
  destruct (String.ltb x y); [reflexivity | ].
  rewrite IH. apply perm_swap.
Qed.

Lemma sorted_strings_perm (l : list string) : Permutation (sorted_strings l) l.
Proof.
  induction l as [| x l IH]; cbn [sorted_strings fold_right]; [reflexivity | ].
  fold (sorted_strings l). rewrite insert_string_perm. now constructor.
Qed.

Lemma string_lt_trans (a b c : string) :
  string_lt a b -> string_lt b c -> string_lt a c.
Proof. apply string_compare_lt_trans. Qed.

Lemma string_not_lt (x y : string) :
  String.ltb x y = false -> x <> y -> string_lt y x.
Proof.
  unfold String.ltb, string_lt. intros Hlt Hne.
  rewrite String.compare_antisym.
  destruct (String.compare x y) eqn:E; try discriminate; [ | reflexivity].
  apply string_compare_eq in E. contradiction.
Qed.

Lemma insert_string_sorted (x : string) (l : list string) :
  ~ In x l -> StronglySorted string_lt l ->
  StronglySorted string_lt (insert_string x l).
Proof.
  intros Hx Hs. induction Hs as [| y l Hs IH Hall]; cbn [insert_string].
  - repeat constructor.
  - destruct (String.ltb x y) eqn:E.
    + assert (Hxy : string_lt x y).
      { unfold String.ltb in E. unfold string_lt.
        destruct (String.compare x y); congruence. }
      constructor; [constructor; assumption | ].
      constructor; [exact Hxy | ].
      eapply Forall_impl; [ | exact Hall].
      intros z Hz. eapply string_lt_trans; eassumption.
    + assert (Hyx : string_lt y x).
      { apply string_not_lt; [assumption | ]. intros ->. apply Hx. now left. }
      constructor.
      * apply IH. intros Hin. apply Hx. now right.
      * apply (Permutation_Forall (Permutation_sym (insert_string_perm x l))).
        now constructor.
Qed.

Lemma sorted_strings_sorted (l : list string) :
  NoDup l -> StronglySorted string_lt (sorted_strings l).
Proof.
  induction 1 as [| x l Hx Hnd IH]; cbn [sorted_strings fold_right];
    [constructor | ].
  fold (sorted_strings l). apply insert_string_sorted; [ | assumption].
  intros Hin. apply Hx. exact (proj1 (sorted_strings_In x l) Hin).
Qed.

(** X3. The options of the country dropdown are in strictly ascending order,
    hence without repetition, and they are exactly the countries that occur
    in the dataset. *)
Theorem listCountries_sorted_exact (data : list DerivedRecord) :
  StronglySorted string_lt (listCountries data)
  /\ NoDup (listCountries data)
  /\ (forall c, In c (listCountries data)
                <-> exists r, In r data /\ Country (daily r) = c).
Proof.
  unfold listCountries.
  pose proof (unique_NoDup (map (fun r => Country (daily r)) data)) as Hnd.
  split; [now apply sorted_strings_sorted | split].
  - apply (Permutation_NoDup (Permutation_sym (sorted_strings_perm _))).
    exact Hnd.
  - intros c. apply listCountries_In.
Qed.

(* ================================================================= *)
(** ** The dataset as a whole *)

Lemma normalize_rows_perm (read : string -> option date)
  (rows rows' : list RawRecord) :
  Permutation rows rows' ->
  Permutation (normalize_rows read rows) (normalize_rows read rows').
Proof.
  unfold normalize_rows.
  induction 1 as [| x l l' _ IH | x y l | l l' l'' _ IH1 _ IH2]; cbn [flat_map].
  - constructor.
  - now apply Permutation_app_head.
  - rewrite !app_assoc. apply Permutation_app_tail, Permutation_app_comm.
  - eapply Permutation_trans; eassumption.
Qed.

Lemma normalize_rows_same_reading (read read' : string -> option date)
  (rows : list RawRecord) :
  (forall x, In x rows -> read (Last_Update x) = read' (Last_Update x)) ->
  normalize_rows read rows = normalize_rows read' rows.
Proof.
  induction rows as [| r rows IH]; intros H; [reflexivity | ].
  rewrite !normalize_rows_cons, IH by (intros x Hx; apply H; now right).
  unfold normalize_row, coerce_date. rewrite (H r) by now left. reflexivity.
Qed.

Lemma groupby_sum_perm (rows rows' : list Row) :
  Permutation rows rows' -> groupby_sum rows = groupby_sum rows'.
Proof.
  intros HP. apply sorted_frames_ext; try apply groupby_sum_sorted.
  intros c d. rewrite !find_groupby_sum. now apply group_total_perm.
Qed.

(** The order of the rows matters when it changes the format that is
    inferred for the column: of a column in two formats, the cells in the
    format of the first cell are the ones that are read. *)
Example load_data_order_matters :
  Permutation mixed_raw (rev mixed_raw)
  /\ map daily (load_data to_datetime_inferred mixed_raw)
     = [ mkRow "X" 737791 1 0 ]
  /\ map daily (load_data to_datetime_inferred (rev mixed_raw))
     = [ mkRow "X" 737792 2 0 ].
Proof.
  split; [apply Permutation_rev | split; vm_compute; reflexivity].
Qed.

(** X4. The dataset does not depend on the order of the rows of the CSV, as
    long as the cells of the CSV are read the same way in both orders. *)
Theorem load_data_row_order (to_datetime : list string -> string -> option date)
  (raw raw' : list RawRecord) :
  Permutation raw raw' ->
  (forall x, In x raw ->
             to_datetime (timestamps raw) (Last_Update x)
             = to_datetime (timestamps raw') (Last_Update x)) ->
  load_data to_datetime raw = load_data to_datetime raw'.
Proof.
  intros HP Hread. unfold load_data. f_equal.
  apply groupby_sum_perm. unfold normalize.
  rewrite (normalize_rows_same_reading _ _ raw Hread).
  now apply normalize_rows_perm.
Qed.

(** The scenario, read backwards by a parser that infers the format: the
    first cell that it can read is in ISO format in both orders. *)
Lemma load_data_row_order_witness :
  load_data to_datetime_inferred sample_raw
  = load_data to_datetime_inferred (rev sample_raw).
Proof.
  refine (load_data_row_order to_datetime_inferred sample_raw (rev sample_raw)
            (Permutation_rev sample_raw) _).
  intros x Hx. unfold sample_raw in Hx. cbn [In] in Hx.
  destruct Hx as [<- | [<- | [<- | [<- | []]]]]; vm_compute; reflexivity.
Defined.

Lemma listCountries_nil (data : list DerivedRecord) :
  listCountries data = [] <-> data = [].
Proof.
  split; [ | intros ->; reflexivity].
  destruct data as [| r data]; [reflexivity | ]. intros H.
  assert (Hin : In (Country (daily r)) (listCountries (r :: data))).
  { apply listCountries_In. exists r. split; [now left | reflexivity]. }
  rewrite H in Hin. destruct Hin.
Qed.

(** X5. The dataset is empty exactly when no row of the CSV has a timestamp
    that parses, an empty CSV included; and exactly then the country
    dropdown has no option. *)
Theorem load_data_empty_iff (to_datetime : list string -> string -> option date)
  (raw : list RawRecord) :
  (load_data to_datetime raw = []
   <-> forallb (is_NaT (to_datetime (timestamps raw))) raw = true)
  /\ (listCountries (load_data to_datetime raw) = []
      <-> forallb (is_NaT (to_datetime (timestamps raw))) raw = true).
Proof.
  split; [apply load_data_nil | ].
  rewrite listCountries_nil. apply load_data_nil.
Qed.

(** X6. The dataset is in strictly ascending order of (country, date): it
    holds one row per pair, the rows of a country are contiguous, and they
    are in chronological order. *)
Theorem load_data_key_order (to_datetime : list string -> string -> option date)
  (raw : list RawRecord) :
  let data := load_data to_datetime raw in
  StronglySorted row_lt (map daily data)
  /\ NoDup (map (fun r => key_of (daily r)) data)
  /\ (forall front r1 mid r2 back,
        data = front ++ r1 :: mid ++ r2 :: back ->
        Country (daily r1) = Country (daily r2) ->
        Date (daily r1) < Date (daily r2)
        /\ (forall r, In r mid -> Country (daily r) = Country (daily r1))).
Proof.
  intros data.
  assert (Hmap : map daily data = groupby_sum (normalize to_datetime raw)).
  { subst data. unfold load_data, derive. rewrite map_map. cbn [add_features daily].
    apply map_id. }
  assert (Hs : StronglySorted row_lt (map daily data))
    by (rewrite Hmap; apply groupby_sum_sorted).
  split; [exact Hs | split].
  - rewrite <- (map_map daily key_of). now apply sorted_keys_NoDup.
  - intros front r1 mid r2 back E Hc. rewrite E in Hs. clear E Hmap.
    rewrite map_app in Hs. cbn [map] in Hs. rewrite map_app in Hs. cbn [map] in Hs.
    induction front as [| f front IH]; cbn [map app] in Hs.
    + apply StronglySorted_inv in Hs. destruct Hs as [Hs Hall].
      rewrite Forall_app in Hall. destruct Hall as [Hmid Hall].
      apply Forall_inv in Hall.
      assert (Hlt : forall a b, row_lt a b -> Country a = Country b ->
                                Date a < Date b).
      { intros a b Hab Hcab. unfold row_lt, row_compare, key_compare in Hab.
        rewrite Hcab, string_compare_refl in Hab. now apply Z.compare_lt_iff. }
      split; [now apply Hlt | ].
      intros r Hr.
      assert (H1 : row_lt (daily r1) (daily r)).
      { rewrite Forall_forall in Hmid. apply Hmid. now apply in_map. }
      assert (H2 : row_lt (daily r) (daily r2)).
      { clear - Hs Hr. induction mid as [| m mid IH]; [destruct Hr | ].
        cbn [map app] in Hs. apply StronglySorted_inv in Hs.
        destruct Hs as [Hs Hall]. destruct Hr as [-> | Hr]; [ | now apply IH].
        rewrite Forall_app in Hall. destruct Hall as [_ Hall].
        now apply Forall_inv in Hall. }
      unfold row_lt, row_compare, key_compare in H1, H2.
      destruct (String.compare (Country (daily r1)) (Country (daily r))) eqn:E1;
        try discriminate.
      * apply string_compare_eq in E1. now symmetry.
      * exfalso.
        destruct (String.compare (Country (daily r)) (Country (daily r2))) eqn:E2;
          try discriminate.
        -- apply string_compare_eq in E2.
           assert (E3 : Country (daily r1) = Country (daily r)) by congruence.
           rewrite E3, string_compare_refl in E1. discriminate.
        -- pose proof (string_compare_lt_trans _ _ _ E1 E2) as E3.
           rewrite Hc, string_compare_refl in E3. discriminate.
    + apply StronglySorted_inv in Hs. now apply IH.
Qed.

(** In the scenario the two days of country X follow each other. *)
Lemma load_data_key_order_witness :
  Date (daily sample_day1) < 737792.
Proof.
  destruct (load_data_key_order to_datetime_iso sample_raw) as (_ & _ & H).
  refine (proj1 (H [] sample_day1 []
                   {| daily := mkRow "X" 737792 50 2;
                      Recovered := 38; Active := 10 |} [] _ _)).
  - vm_compute. reflexivity.
  - reflexivity.
Defined.

(** X7. No cell of the dataset leaves the [int64] range, and the recovered
    estimate of a row never exceeds its difference [Confirmed - Deaths], nor
    0 when that difference is negative. *)
Theorem load_data_cells_in_range (to_datetime : list string -> string -> option date)
  (raw : list RawRecord) (r : DerivedRecord) :
  In r (load_data to_datetime raw) ->
  int64 (Confirmed (daily r)) /\ int64 (Deaths (daily r))
  /\ int64 (Recovered r) /\ int64 (Active r)
  /\ Recovered r <= Z.max 0 (sub64 (Confirmed (daily r)) (Deaths (daily r))).
Proof.
  unfold load_data, derive. intros Hin. apply in_map_iff in Hin.
  destruct Hin as (g & <- & Hg). cbn [add_features daily Recovered Active].
  destruct (groupby_sum_int64 _ _ Hg) as [Hc Hd].
  pose proof (recovered_of_range (Confirmed g) (Deaths g)) as Hr.
  pose proof (wrap64_int64 (Confirmed g - Deaths g)) as Hn.
  fold (sub64 (Confirmed g) (Deaths g)) in Hn.
  repeat split; try apply Hc; try apply Hd; try apply wrap64_int64;
    unfold int64, int64_min, int64_max in *; lia.
Qed.

(** The first day of the scenario. *)
Lemma load_data_cells_in_range_witness :
  int64 (Recovered sample_day1) /\ int64 (Active sample_day1)
  /\ Recovered sample_day1 <= Z.max 0 (sub64 110 6).
Proof.
  destruct (load_data_cells_in_range to_datetime_iso sample_raw sample_day1)
    as (_ & _ & Hr & Ha & Hle).
  - vm_compute. left. reflexivity.
  - split; [exact Hr | split; [exact Ha | exact Hle]].
Defined.

Lemma minus_four_fifths (n : Z) : n - (4 * n) / 5 = (n + 4) / 5.
Proof.
  pose proof (Z.div_mod (4 * n) 5 ltac:(lia)) as Hq.
  pose proof (Z.mod_pos_bound (4 * n) 5 ltac:(lia)) as Hm.
  apply (Z.div_unique (n + 4) 5 (n - 4 * n / 5) (4 - (4 * n) mod 5)); lia.
Qed.

(** X8. For a difference [Confirmed - Deaths] from 0 to below [3 * 2^49] the
    active count is the ceiling of a fifth of the difference, so that at
    least a fifth of the survivors stay active; for a negative difference
    nobody is recovered and the active count is the difference itself. *)
Theorem active_is_ceiling_of_fifth (g : DailyCountryRecord) :
  let n := Confirmed g - Deaths g in
  let r := add_features g in
  (0 <= n < 3 * 2 ^ 49 ->
   Active r = ceil_fifth n /\ Recovered r + Active r = n /\ n <= 5 * Active r)
  /\ (int64_min <= n <= 0 -> Recovered r = 0 /\ Active r = n).
Proof.
  cbn [add_features Recovered Active]. set (c := Confirmed g). set (d := Deaths g).
  assert (Hwrap : int64_min <= c - d < 3 * 2 ^ 49 -> sub64 c d = c - d).
  { intros H. apply wrap64_id. unfold int64, int64_min, int64_max in *.
    change (3 * 2 ^ 49) with 1688849860263936 in H.
    change (2 ^ 63 - 1) with 9223372036854775807. lia. }
  assert (Hmin : int64_min < 0) by reflexivity.
  assert (Hpos : 0 < 3 * 2 ^ 49) by reflexivity.
  split.
  - intros Hn. rewrite <- (Hwrap ltac:(lia)) in Hn |- *.
    assert (Er : recovered_of c d = (4 * sub64 c d) / 5).
    { destruct (Z.eq_dec (sub64 c d) 0) as [E0 | Hne].
      - destruct (recovered_of_nonpos c d ltac:(lia)) as [-> _].
        rewrite E0. reflexivity.
      - destruct (recovered_of_pos c d ltac:(lia)) as (_ & _ & Hex).
        apply Hex. lia. }
    set (n := sub64 c d) in *.
    assert (Ea : active_of c d (recovered_of c d) = ceil_fifth n).
    { unfold active_of. fold n. unfold sub64. rewrite Er, wrap64_id.
      - apply minus_four_fifths.
      - rewrite minus_four_fifths.
        pose proof (wrap64_int64 (c - d)) as Hi. fold (sub64 c d) in Hi. fold n in Hi.
        unfold int64, int64_min, int64_max in *.
        assert (0 <= (n + 4) / 5 <= n).
        { split; [apply Z.div_pos; lia | ].
          destruct (Z.eq_dec n 0) as [-> | ?]; [reflexivity | ].
          apply Z.div_le_upper_bound; lia. }
        lia. }
    rewrite Ea, Er. unfold ceil_fifth. rewrite <- minus_four_fifths.
    pose proof (Z.mul_div_le (4 * n) 5 ltac:(lia)). repeat split; lia.
  - intros Hn.
    assert (En : sub64 c d = c - d) by (apply Hwrap; lia).
    destruct (recovered_of_nonpos c d ltac:(lia)) as [Er _].
    rewrite Er. split; [reflexivity | ].
    unfold active_of. rewrite En. unfold sub64. rewrite Z.sub_0_r. apply wrap64_id.
    unfold int64, int64_max. change (2 ^ 63 - 1) with 9223372036854775807. lia.
Qed.

(** The first day of the scenario: 21 of 104. *)
Lemma active_is_ceiling_of_fifth_witness :
  Active (add_features (mkRow "X" 737791 110 6)) = ceil_fifth 104
  /\ 104 <= 5 * Active (add_features (mkRow "X" 737791 110 6)).
Proof.
  destruct (active_is_ceiling_of_fifth (mkRow "X" 737791 110 6)) as [H _].
  destruct H as (Ha & _ & Hb); [vm_compute; split; [discriminate | reflexivity] | ].
  split; [exact Ha | exact Hb].
Defined.

(* ================================================================= *)
(** ** Totals of the aggregation *)

Lemma wrap64_add_r (x y : Z) : wrap64 (x + wrap64 y) = wrap64 (x + y).
Proof. rewrite (Z.add_comm x), wrap64_add_l. f_equal. lia. Qed.

Lemma add_row_totals_mod (r : Row) (acc : list Row) :
  wrap64 (zsum (map Confirmed (add_row r acc)))
  = wrap64 (zsum (map Confirmed acc) + Confirmed r)
  /\ wrap64 (zsum (map Deaths (add_row r acc)))
     = wrap64 (zsum (map Deaths acc) + Deaths r).
Proof.
  induction acc as [| g acc [IHc IHd]]; cbn [add_row].
  - cbn [map zsum fold_right Confirmed Deaths]. unfold add64.
    rewrite !Z.add_0_r, !Z.add_0_l. split; apply wrap64_id, wrap64_int64.
  - destruct (row_compare r g); cbn [map zsum fold_right Confirmed Deaths];
      fold (zsum (map Confirmed acc)); fold (zsum (map Deaths acc)).
    + unfold add64. rewrite !wrap64_add_l. split; f_equal; lia.
    + unfold add64. rewrite !wrap64_add_l. split; f_equal; lia.
    + fold (zsum (map Confirmed (add_row r acc))).
      fold (zsum (map Deaths (add_row r acc))).
      rewrite <- wrap64_add_r, IHc, wrap64_add_r.
      rewrite <- (wrap64_add_r (Deaths g)), IHd, wrap64_add_r.
      split; f_equal; lia.
Qed.

Lemma zsum_nonneg (l : list Z) : Forall (fun x => 0 <= x) l -> 0 <= zsum l.
Proof.
  induction 1 as [| x l Hx _ IH]; cbn [zsum fold_right]; [lia | ].
  fold (zsum l). lia.
Qed.

Lemma nonneg_columns (l : list Row) :
  Forall nonneg_counts l ->
  Forall (fun x => 0 <= x) (map Confirmed l)
  /\ Forall (fun x => 0 <= x) (map Deaths l).
Proof.
  induction 1 as [| g l [Hc Hd] _ [IHc IHd]]; cbn [map]; split; constructor;
    assumption.
Qed.

Lemma add_row_totals_exact (r : Row) (acc : list Row) :
  Forall nonneg_counts acc -> nonneg_counts r ->
  zsum (map Confirmed acc) + Confirmed r <= int64_max ->
  zsum (map Deaths acc) + Deaths r <= int64_max ->
  Forall nonneg_counts (add_row r acc)
  /\ zsum (map Confirmed (add_row r acc)) = zsum (map Confirmed acc) + Confirmed r
  /\ zsum (map Deaths (add_row r acc)) = zsum (map Deaths acc) + Deaths r.
Proof.
  intros Hacc [Hrc Hrd].
  assert (Hfit : forall a x, 0 <= a -> 0 <= x -> a + x <= int64_max ->
                             add64 a x = a + x).
  { intros a x Ha Hx Hax. apply wrap64_id. unfold int64, int64_min, int64_max in *.
    lia. }
  induction Hacc as [| g acc [Hgc Hgd] Hacc IH]; cbn [add_row];
    cbn [map zsum fold_right]; intros Hc Hd.
  - rewrite !Hfit by lia. cbn [map zsum fold_right Confirmed Deaths].
    repeat split; try lia. repeat constructor; cbn [Confirmed Deaths]; lia.
  - fold (zsum (map Confirmed acc)) in *. fold (zsum (map Deaths acc)) in *.
    destruct (nonneg_columns acc Hacc) as [Nc Nd].
    pose proof (zsum_nonneg _ Nc). pose proof (zsum_nonneg _ Nd).
    destruct (row_compare r g).
    + rewrite !Hfit by lia. cbn [map zsum fold_right Confirmed Deaths].
      fold (zsum (map Confirmed acc)). fold (zsum (map Deaths acc)).
      repeat split; try lia.
      constructor; [split; cbn [Confirmed Deaths]; lia | assumption].
    + rewrite !Hfit by lia. cbn [map zsum fold_right Confirmed Deaths].
      fold (zsum (map Confirmed acc)). fold (zsum (map Deaths acc)).
      repeat split; try lia.
      constructor; [split; cbn [Confirmed Deaths]; lia | ].
      constructor; [split; assumption | assumption].
    + destruct IH as (IHn & IHc & IHd); try lia.
      cbn [map zsum fold_right].
      fold (zsum (map Confirmed (add_row r acc))).
      fold (zsum (map Deaths (add_row r acc))).
      rewrite IHc, IHd. repeat split; try lia.
      constructor; [split; assumption | assumption].
Qed.

Lemma groupby_sum_totals_exact (rows : list Row) :
  Forall nonneg_counts rows ->
  zsum (map Confirmed rows) <= int64_max ->
  zsum (map Deaths rows) <= int64_max ->
  Forall nonneg_counts (groupby_sum rows)
  /\ zsum (map Confirmed (groupby_sum rows)) = zsum (map Confirmed rows)
  /\ zsum (map Deaths (groupby_sum rows)) = zsum (map Deaths rows).
Proof.
  induction rows as [| r rows IH] using rev_ind.
  - intros _ _ _. split; [constructor | split; reflexivity].
  - intros Hnn Hc Hd.
    rewrite map_app, zsum_app in Hc. rewrite map_app, zsum_app in Hd.
    rewrite !map_app, !zsum_app.
    cbn [map zsum fold_right] in Hc, Hd |- *.
    rewrite Z.add_0_r in Hc. rewrite Z.add_0_r in Hd. rewrite !Z.add_0_r.
    apply Forall_app in Hnn. destruct Hnn as [Hnn Hr].
    apply Forall_inv in Hr. pose proof Hr as [Hrc Hrd].
    destruct IH as (IHn & IHc & IHd); try assumption; try lia.
    rewrite groupby_sum_snoc.
    destruct (add_row_totals_exact r (groupby_sum rows)) as (Hn' & Hc' & Hd');
      try assumption; try lia.
    rewrite Hc', Hd', IHc, IHd. split; [assumption | split; reflexivity].
Qed.

(** X9. The aggregation conserves the grand totals of both columns: always
    in [int64] arithmetic, and as exact integers when the counts are
    non-negative and their totals fit in an [int64]. *)
Theorem groupby_sum_conserves_totals (rows : list NormalizedRecord) :
  (wrap64 (zsum (map Confirmed (groupby_sum rows)))
   = wrap64 (zsum (map Confirmed rows))
   /\ wrap64 (zsum (map Deaths (groupby_sum rows)))
      = wrap64 (zsum (map Deaths rows)))
  /\ (Forall nonneg_counts rows ->
      zsum (map Confirmed rows) <= int64_max ->
      zsum (map Deaths rows) <= int64_max ->
      zsum (map Confirmed (groupby_sum rows)) = zsum (map Confirmed rows)
      /\ zsum (map Deaths (groupby_sum rows)) = zsum (map Deaths rows)).
Proof.
  split.
  - induction rows as [| r rows [IHc IHd]] using rev_ind; [split; reflexivity | ].
    rewrite groupby_sum_snoc, !map_app, !zsum_app. cbn [map zsum fold_right].
    destruct (add_row_totals_mod r (groupby_sum rows)) as [Hc Hd].
    rewrite Hc, Hd, !Z.add_0_r.
    rewrite <- wrap64_add_l, IHc, wrap64_add_l.
    rewrite <- (wrap64_add_l (zsum (map Deaths (groupby_sum rows)))), IHd,
      wrap64_add_l.
    split; reflexivity.
  - intros Hnn Hc Hd.
    destruct (groupby_sum_totals_exact rows Hnn Hc Hd) as (_ & H1 & H2).
    split; assumption.
Qed.

(** The rows of the scenario: 160 confirmed, 8 deaths. *)
Lemma groupby_sum_conserves_totals_witness :
  zsum (map Confirmed (groupby_sum sample_rows)) = 160
  /\ zsum (map Deaths (groupby_sum sample_rows)) = 8.
Proof.
  destruct (groupby_sum_conserves_totals sample_rows) as [_ H].
  destruct H as [Hc Hd].
  - repeat constructor; vm_compute; discriminate.
  - vm_compute. discriminate.
  - vm_compute. discriminate.
  - rewrite Hc, Hd. split; reflexivity.
Defined.

Lemma group_of_app (c : string) (d : date) (a b : list Row) :
  group_of c d (a ++ b) = group_of c d a ++ group_of c d b.
Proof. apply filter_app. Qed.

(** X10. Aggregating in two stages gives the frame of a single aggregation:
    a part of the rows may be aggregated before the others are appended. *)
Theorem groupby_sum_two_stages (rows more : list NormalizedRecord) :
  groupby_sum (groupby_sum rows ++ more) = groupby_sum (rows ++ more).
Proof.
  apply sorted_frames_ext; try apply groupby_sum_sorted.
  intros c d. rewrite !find_groupby_sum.
  unfold group_total. rewrite !group_of_app.
  rewrite (group_of_sorted c d _ (groupby_sum_sorted rows)), find_groupby_sum.
  unfold group_total.
  destruct (group_of c d rows) as [| g grp] eqn:E; [reflexivity | ].
  cbn [app map zsum fold_right Confirmed Deaths].
  rewrite !map_app, !zsum_app.
  fold (zsum (map Confirmed grp)). fold (zsum (map Deaths grp)).
  rewrite !wrap64_add_l. unfold zsum. f_equal. f_equal; f_equal; lia.
Qed.

(* ================================================================= *)
(** ** The series on the dataset of the script *)

Lemma sorted_distinct_strict (l : list DerivedRecord) :
  StronglySorted date_le l -> NoDup (map (fun r => Date (daily r)) l) ->
  StronglySorted date_lt l.
Proof.
  induction 1 as [| a l Hs IH Hall]; cbn [map]; intros Hnd; [constructor | ].
  inversion Hnd as [| ? ? Hna Hnd']; subst.
  constructor; [now apply IH | ].
  rewrite Forall_forall in Hall |- *. intros x Hx.
  pose proof (Hall x Hx) as Hle. unfold date_le in Hle. unfold date_lt.
  destruct (Z.eq_dec (Date (daily a)) (Date (daily x))) as [E | Hne]; [ | lia].
  exfalso. apply Hna. rewrite E. now apply (in_map (fun r => Date (daily r))).
Qed.

Lemma filtered_dates_distinct (to_datetime : list string -> string -> option date)
  (raw : list RawRecord) (c : string) (s e : date) :
  NoDup (map (fun r => Date (daily r))
           (filtered (load_data to_datetime raw) c s e)).
Proof.
  unfold filtered.
  apply (Permutation_NoDup
           (Permutation_map _ (Permutation_sym (sort_values_Date_perm _)))).
  apply load_data_dates_distinct.
Qed.

Lemma filtered_dates_strict (to_datetime : list string -> string -> option date)
  (raw : list RawRecord) (c : string) (s e : date) :
  StronglySorted date_lt (filtered (load_data to_datetime raw) c s e).
Proof.
  apply sorted_distinct_strict.
  - apply sort_values_Date_sorted.
  - apply filtered_dates_distinct.
Qed.

Lemma distinct_in_range_length (l : list Z) (s e : Z) :
  NoDup l -> (forall x, In x l -> s <= x <= e) ->
  (List.length l <= Z.to_nat (e - s + 1))%nat.
Proof.
  intros Hnd Hr.
  set (days := map (fun i => s + Z.of_nat i) (seq 0 (Z.to_nat (e - s + 1)))).
  replace (Z.to_nat (e - s + 1)) with (List.length days)
    by (subst days; now rewrite length_map, length_seq).
  apply NoDup_incl_length; [assumption | ].
  intros x Hx. specialize (Hr x Hx). subst days.
  apply in_map_iff. exists (Z.to_nat (x - s)). split; [lia | ].
  apply in_seq. lia.
Qed.

(** X11. On the dataset of the script the series of a query has strictly
    increasing dates, so that no two bars share a date, and it holds at most
    one row per day of the range. *)
Theorem series_one_row_per_day (to_datetime : list string -> string -> option date)
  (raw : list RawRecord) (country : string) (startDate endDate : date) :
  let rows := series (query (load_data to_datetime raw) country startDate endDate) in
  StronglySorted date_lt rows
  /\ (List.length rows <= Z.to_nat (endDate - startDate + 1))%nat.
Proof.
  cbn [query series]. split; [apply filtered_dates_strict | ].
  rewrite <- (length_map (fun r => Date (daily r))).
  apply distinct_in_range_length; [apply filtered_dates_distinct | ].
  intros x Hx. apply in_map_iff in Hx. destruct Hx as (r & <- & Hr).
  apply filtered_In in Hr. tauto.
Qed.


(* ================================================================= *)
(** ** KPIs and the range *)

(** X13. Widening the date range never lowers the three totals: when the
    series of the narrower range is not empty, each total over the wider
    range is at least the total over the narrower one. *)
Theorem totals_grow_with_range (data : list DerivedRecord) (country : string)
  (s e s' e' : date) :
  s' <= s -> e <= e' ->
  series (query data country s e) <> [] ->
  let k := kpis (query data country s e) in
  let k' := kpis (query data country s' e') in
  total_cases k <= total_cases k'
  /\ total_deaths k <= total_deaths k'
  /\ total_recovered k <= total_recovered k'.
Proof.
  intros Hs He Hne. cbn [query series kpis] in *.
  set (rows := filtered data country s e) in *.
  set (rows' := filtered data country s' e').
  assert (Hsub : forall r, In r rows -> In r rows').
  { intros r Hr. apply filtered_In in Hr. apply filtered_In.
    destruct Hr as (H1 & H2 & H3). repeat split; try assumption; lia. }
  assert (Hne' : rows' <> []).
  { destruct rows as [| r rest]; [congruence | ].
    intros E. specialize (Hsub r ltac:(now left)). rewrite E in Hsub.
    destruct Hsub. }
  destruct rows as [| r0 rest] eqn:Er; [congruence | ].
  destruct rows' as [| r0' rest'] eqn:Er'; [congruence | ].
  rewrite !kpis_of_cons. cbv zeta.
  cbn [total_cases total_deaths total_recovered].
  rewrite <- Er, <- Er' in *.
  assert (Hcol : forall f : DerivedRecord -> Z,
             column_max (map f rows) <= column_max (map f rows')).
  { intros f.
    destruct (max_of_column f rows Hne) as [(r & Hr & <-) _].
    destruct (max_of_column f rows' Hne') as [_ Hub].
    apply Hub, Hsub, Hr. }
  repeat split; apply Hcol.
Qed.

(** The scenario: its first day against its two days. *)
Lemma totals_grow_with_range_witness :
  total_cases (kpis (query sample_data "X" 737791 737791))
  <= total_cases (kpis (query sample_data "X" 737791 737792)).
Proof.
  assert (H1 : 737791 <= 737791) by lia.
  assert (H2 : 737791 <= 737792) by lia.
  assert (H3 : series (query sample_data "X" 737791 737791) <> [])
    by (vm_compute; discriminate).
  exact (proj1 (totals_grow_with_range sample_data "X" 737791 737791
                  737791 737792 H1 H2 H3)).
Defined.

Lemma nondecreasing_last (f : DerivedRecord -> Z) (front : list DerivedRecord)
  (final r : DerivedRecord) :
  nondecreasing f (front ++ [final]) -> In r (front ++ [final]) -> f r <= f final.
Proof.
  unfold nondecreasing. induction front as [| a front IH]; cbn [app].
  - intros _ [<- | []]. lia.
  - intros Hs Hr. apply StronglySorted_inv in Hs. destruct Hs as [Hs Hall].
    destruct Hr as [<- | Hr]; [ | now apply IH].
    rewrite Forall_forall in Hall. apply Hall. apply in_or_app. right. now left.
Qed.

Lemma max_of_nondecreasing (f : DerivedRecord -> Z) (front : list DerivedRecord)
  (final : DerivedRecord) :
  nondecreasing f (front ++ [final]) ->
  column_max (map f (front ++ [final])) = f final.
Proof.
  intros Hnd.
  assert (Hne : front ++ [final] <> []) by (destruct front; discriminate).
  destruct (max_of_column f _ Hne) as [(r & Hr & Hmax) Hub].
  pose proof (nondecreasing_last f front final r Hnd Hr).
  assert (f final <= column_max (map f (front ++ [final])))
    by (apply Hub, in_or_app; right; now left).
  lia.
Qed.

(** X14. When a column does not decrease along the series, as a cumulative
    count does, its total is the value of the last row: the card then shows
    the latest figure of the range, as the card of the active cases does. *)
Theorem cumulative_totals_are_latest (data : list DerivedRecord) (country : string)
  (startDate endDate : date) (front : list DerivedRecord) (final : DerivedRecord) :
  let q := query data country startDate endDate in
  series q = front ++ [final] ->
  (nondecreasing (fun r => Confirmed (daily r)) (series q) ->
   total_cases (kpis q) = Confirmed (daily final))
  /\ (nondecreasing (fun r => Deaths (daily r)) (series q) ->
      total_deaths (kpis q) = Deaths (daily final))
  /\ (nondecreasing Recovered (series q) ->
      total_recovered (kpis q) = Recovered final)
  /\ active_cases (kpis q) = Active final.
Proof.
  cbn [query series kpis]. intros E. rewrite E.
  assert (Hk : forall r0 rest, front ++ [final] = r0 :: rest ->
               kpis_of (front ++ [final])
               = {| total_cases :=
                      column_max (map (fun r => Confirmed (daily r)) (front ++ [final]));
                    total_deaths :=
                      column_max (map (fun r => Deaths (daily r)) (front ++ [final]));
                    total_recovered := column_max (map Recovered (front ++ [final]));
                    active_cases := Active final |}).
  { intros r0 rest Er. rewrite Er at 1. rewrite kpis_of_cons. cbv zeta.
    rewrite <- Er. now rewrite last_last. }
  destruct (front ++ [final]) as [| r0 rest] eqn:Er;
    [destruct front; discriminate | ].
  rewrite <- Er in *. rewrite (Hk r0 rest Er).
  cbn [total_cases total_deaths total_recovered active_cases].
  repeat split; try apply max_of_nondecreasing.
Qed.

(** Two days of growing counts: the three totals are those of the second
    day, as the active cases are. *)
Lemma cumulative_totals_are_latest_witness :
  total_cases (kpis (query growing_data "X" 737791 737792)) = 150
  /\ total_deaths (kpis (query growing_data "X" 737791 737792)) = 7
  /\ total_recovered (kpis (query growing_data "X" 737791 737792)) = 114
  /\ active_cases (kpis (query growing_data "X" 737791 737792)) = 29.
Proof.
  assert (E : series (query growing_data "X" 737791 737792) = growing_data)
    by (vm_compute; reflexivity).
  destruct (cumulative_totals_are_latest growing_data "X" 737791 737792
              [ {| daily := mkRow "X" 737791 100 5;
                   Recovered := 76; Active := 19 |} ]
              {| daily := mkRow "X" 737792 150 7;
                 Recovered := 114; Active := 29 |})
    as (Hc & Hd & Hr & Ha).
  - exact E.
  - split; [ | split; [ | split; [ | exact Ha]]];
      [apply Hc | apply Hd | apply Hr];
      rewrite E; unfold nondecreasing, growing_data;
      repeat constructor; cbn; lia.
Defined.

(* ================================================================= *)
(** ** The date part of a string *)

(** X15. The date part of a string is its longest prefix without a ['T']: it
    holds no ['T'], and what follows it in the string is nothing or starts
    with a ['T']. *)
Theorem date_part_longest_prefix (s : string) :
  ~ In "T"%char (list_ascii_of_string (date_part s))
  /\ exists rest,
       s = (date_part s ++ rest)%string
       /\ (rest = EmptyString \/ exists t, rest = String "T" t).
Proof.
  induction s as [| c s [IHn (rest & IHe & IHr)]].
  - split; [intros [] | ]. exists EmptyString. split; [reflexivity | now left].
  - rewrite date_part_cons. destruct (Ascii.eqb_spec c "T") as [-> | Hne].
    + split; [intros [] | ]. exists (String "T" s).
      split; [reflexivity | right; now exists s].
    + split.
      * cbn [list_ascii_of_string In]. intros [H | H]; [congruence | tauto].
      * exists rest. split; [ | exact IHr].
        cbn [append]. now rewrite <- IHe.
Qed.

Example format_thousands_samples :
  map format_thousands [0; 7; 999; 1000; 1234567; -123; -1234; 110]
  = [ "0"; "7"; "999"; "1,000"; "1,234,567"; "-123"; "-1,234"; "110" ]%string.
Proof. reflexivity. Qed.

(* ================================================================= *)
(** ** The KPI cards *)

Lemma group3_commas_only (n : nat) (l : list ascii) :
  (List.length l <= n)%nat -> filter not_comma (group3 l) = filter not_comma l.
Proof.
  revert l. induction n as [| n IH]; intros l Hn.
  - destruct l; [reflexivity | cbn [List.length] in Hn; lia].
  - destruct l as [| a [| b [| c [| d rest]]]]; try reflexivity.
    change (group3 (a :: b :: c :: d :: rest))
      with (a :: b :: c :: ","%char :: group3 (d :: rest)).
    cbn [filter]. change (not_comma ",") with false. cbv iota.
    rewrite (IH (d :: rest)) by (cbn [List.length] in *; lia). reflexivity.
Qed.

Lemma filter_rev {A} (f : A -> bool) (l : list A) :
  filter f (rev l) = rev (filter f l).
Proof.
  induction l as [| a l IH]; [reflexivity | ].
  cbn [rev filter]. rewrite filter_app, IH. cbn [filter].
  destruct (f a); [reflexivity | now rewrite app_nil_r].
Qed.

Lemma without_with_commas (digits : string) :
  Forall (fun c => not_comma c = true) (list_ascii_of_string digits) ->
  without_commas (with_commas digits) = digits.
Proof.
  intros Hd. unfold without_commas, with_commas.
  rewrite list_ascii_of_string_of_list_ascii, filter_rev.
  rewrite (group3_commas_only _ _ (Nat.le_refl _)), <- filter_rev, rev_involutive.
  rewrite forallb_filter_id, string_of_list_ascii_of_string;
    [reflexivity | ].
  now apply forallb_forall, Forall_forall.
Qed.

Lemma digits_no_comma (d : Decimal.uint) :
  Forall (fun c => not_comma c = true)
    (list_ascii_of_string (NilZero.string_of_uint d)).
Proof.
  assert (H : forall u, Forall (fun c => not_comma c = true)
                          (list_ascii_of_string (NilEmpty.string_of_uint u))).
  { induction u; cbn [NilEmpty.string_of_uint list_ascii_of_string];
      constructor; try reflexivity; assumption. }
  destruct d; try apply H. repeat constructor.
Qed.

Lemma read_format_thousands (z : Z) : read_thousands (format_thousands z) = Some z.
Proof.
  unfold read_thousands.
  assert (E : without_commas (format_thousands z)
              = NilZero.string_of_int (Z.to_int z)).
  { unfold format_thousands. destruct (Z.to_int z) as [d | d];
      cbn [NilZero.string_of_int].
    - apply without_with_commas, digits_no_comma.
    - unfold without_commas. cbn [list_ascii_of_string filter].
      change (not_comma "-") with true. cbv iota. cbn [string_of_list_ascii].
      f_equal. apply without_with_commas, digits_no_comma. }
  rewrite E, NilZero.isi.
  - cbn [option_map]. f_equal. apply DecimalZ.of_to.
  - destruct z; cbn [Z.to_int]; try discriminate.
    intros H. injection H as H. now apply Unsigned.to_uint_nonnil in H.
  - destruct z; cbn [Z.to_int]; try discriminate.
    intros H. injection H as H. now apply Unsigned.to_uint_nonnil in H.
Qed.

(** X16. The text of a card is the decimal numeral of its value with commas
    added: dropping the commas and reading the numeral gives the value
    back. Hence the four cards determine the four KPIs. *)
Theorem cards_show_the_kpis (k k' : KPIs) :
  map (fun c => read_thousands (card_text c)) (cards k)
  = [ Some (total_cases k); Some (active_cases k);
      Some (total_deaths k); Some (total_recovered k) ]
  /\ (cards k = cards k' -> k = k').
Proof.
  assert (H : forall k0,
             map (fun c => read_thousands (card_text c)) (cards k0)
             = [ Some (total_cases k0); Some (active_cases k0);
                 Some (total_deaths k0); Some (total_recovered k0) ]).
  { intros k0. unfold cards, card_data. cbn [map card_text].
    now rewrite !read_format_thousands. }
  split; [apply H | ].
  intros E. pose proof (H k) as Hk. rewrite E, H in Hk.
  destruct k, k'. cbn in Hk. congruence.
Qed.

(** The cards of the scenario. *)
Lemma cards_show_the_kpis_witness :
  map card_text (cards (kpis (query sample_data "X" 737791 737792)))
  = [ "110"; "10"; "6"; "83" ]%string
  /\ map (fun c => read_thousands (card_text c))
       (cards (kpis (query sample_data "X" 737791 737792)))
     = [ Some 110; Some 10; Some 6; Some 83 ].
Proof.
  split; [vm_compute; reflexivity | ].
  rewrite (proj1 (cards_show_the_kpis (kpis (query sample_data "X" 737791 737792))
                    zero_kpis)).
  vm_compute. reflexivity.
Defined.

(* ================================================================= *)
(** ** From the CSV to the series *)

Lemma group_of_normalize (read : string -> option date) (c : string)
  (d : date) (raw : list RawRecord) :
  map Confirmed (group_of c d (normalize_rows read raw))
  = map raw_Confirmed (filter (reports_on read c d) raw)
  /\ map Deaths (group_of c d (normalize_rows read raw))
     = map raw_Deaths (filter (reports_on read c d) raw).
Proof.
  induction raw as [| x raw [IHc IHd]]; [split; reflexivity | ].
  rewrite normalize_rows_cons, group_of_app, !map_app, IHc, IHd.
  cbn [filter].
  assert (E : reports_on read c d x
              = match normalize_row read x with
                | [g] => same_key c d g
                | _ => false
                end).
  { unfold reports_on, normalize_row, coerce_date.
    destruct (read (Last_Update x)) as [d' | ];
      [reflexivity | apply andb_false_r]. }
  rewrite E. unfold normalize_row, coerce_date.
  destruct (read (Last_Update x)) as [d' | ]; [ | split; reflexivity].
  unfold group_of. cbn [filter].
  match goal with |- context [same_key c d ?g] => destruct (same_key c d g) end;
    split; reflexivity.
Qed.

Lemma group_of_nil_iff (c : string) (d : date) (rows : list Row) :
  group_of c d rows <> [] <-> In (c, d) (map key_of rows).
Proof.
  unfold group_of. split.
  - destruct (filter (same_key c d) rows) as [| g grp] eqn:E; [congruence | ].
    intros _. assert (Hg : In g (filter (same_key c d) rows)) by (rewrite E; now left).
    apply filter_In in Hg. destruct Hg as [Hg Hk].
    apply same_key_spec in Hk. destruct Hk as [<- <-].
    apply in_map_iff. now exists g.
  - intros Hin Hnil. apply in_map_iff in Hin. destruct Hin as (g & Hk & Hg).
    unfold key_of in Hk. injection Hk as Hc Hd.
    assert (Hf : In g (filter (same_key c d) rows)).
    { apply filter_In. split; [assumption | now apply same_key_spec]. }
    rewrite Hnil in Hf. destruct Hf.
Qed.

Lemma normalize_keys (read : string -> option date) (c : string)
  (d : date) (raw : list RawRecord) :
  In (c, d) (map key_of (normalize_rows read raw))
  <-> exists x, In x raw /\ Country_Region x = c
                /\ read (Last_Update x) = Some d.
Proof.
  unfold normalize_rows. rewrite in_map_iff. split.
  - intros (g & Hk & Hg). apply in_flat_map in Hg. destruct Hg as (x & Hx & Hg).
    exists x. unfold normalize_row, coerce_date in Hg.
    destruct (read (Last_Update x)) as [d' | ]; [ | destruct Hg].
    destruct Hg as [<- | []]. unfold key_of in Hk. cbn [Country Date] in Hk.
    injection Hk as <- <-. auto.
  - intros (x & Hx & Hc & Hd).
    exists {| Country := Country_Region x; Date := d;
              Confirmed := raw_Confirmed x; Deaths := raw_Deaths x |}.
    split; [unfold key_of; cbn [Country Date]; congruence | ].
    apply in_flat_map. exists x. split; [assumption | ].
    unfold normalize_row, coerce_date. rewrite Hd. now left.
Qed.

(** X17. Every row of the series of a query on the dataset of the script
    carries the sums of the CSV: its [Confirmed] and [Deaths] are the sums,
    in [int64], of the two columns over the rows of the CSV that report on
    its country on its day, and its other two columns are derived from
    these. *)
Theorem series_rows_sum_the_csv (to_datetime : list string -> string -> option date)
  (raw : list RawRecord) (country : string) (startDate endDate : date)
  (r : DerivedRecord) :
  In r (series (query (load_data to_datetime raw) country startDate endDate)) ->
  let reports :=
    filter (reports_on (to_datetime (timestamps raw)) country (Date (daily r)))
           raw in
  reports <> []
  /\ Confirmed (daily r) = wrap64 (zsum (map raw_Confirmed reports))
  /\ Deaths (daily r) = wrap64 (zsum (map raw_Deaths reports))
  /\ Recovered r = recovered_of (Confirmed (daily r)) (Deaths (daily r))
  /\ Active r = active_of (Confirmed (daily r)) (Deaths (daily r)) (Recovered r).
Proof.
  cbn [query series]. intros Hr. apply filtered_In in Hr.
  destruct Hr as (Hin & Hc & _).
  unfold load_data, derive in Hin. apply in_map_iff in Hin.
  destruct Hin as (g & <- & Hg). cbn [add_features daily Recovered Active] in *.
  pose proof (find_key_sorted_in _ _ (groupby_sum_sorted _) Hg) as Hf.
  rewrite find_groupby_sum in Hf. unfold group_total in Hf.
  unfold normalize in Hf.
  destruct (group_of_normalize (to_datetime (timestamps raw))
              (Country g) (Date g) raw) as [Ec Ed].
  rewrite <- Hc, <- Ec, <- Ed.
  destruct (group_of (Country g) (Date g)
              (normalize_rows (to_datetime (timestamps raw)) raw))
    as [| g0 grp]; [discriminate | ].
  injection Hf as Hf.
  split; [intros Hnil; rewrite Hnil in Ec; discriminate | ].
  rewrite <- Hf at 1 2. cbn [Confirmed Deaths map zsum fold_right].
  repeat split; reflexivity.
Qed.

(** The first day of the scenario: two reports, 100 + 10 and 5 + 1. *)
Lemma series_rows_sum_the_csv_witness :
  Confirmed (daily sample_day1) = 110 /\ Deaths (daily sample_day1) = 6.
Proof.
  destruct (series_rows_sum_the_csv to_datetime_iso sample_raw "X"
              737791 737792 sample_day1) as (_ & Hc & Hd & _).
  - vm_compute. left. reflexivity.
  - rewrite Hc, Hd. vm_compute. split; reflexivity.
Defined.

(** X18. The days of the series are exactly the days of the range on which
    some row of the CSV, with a timestamp that parses, reports on the
    country. *)
Theorem series_days_are_reported_days (to_datetime : list string -> string -> option date)
  (raw : list RawRecord) (country : string) (startDate endDate day : date) :
  (exists r,
      In r (series (query (load_data to_datetime raw) country startDate endDate))
      /\ Date (daily r) = day)
  <-> startDate <= day <= endDate
      /\ exists x, In x raw /\ Country_Region x = country
                   /\ to_datetime (timestamps raw) (Last_Update x) = Some day.
Proof.
  cbn [query series].
  rewrite <- normalize_keys, <- group_of_nil_iff.
  fold (normalize to_datetime raw).
  assert (Hk : group_of country day (normalize to_datetime raw) <> []
               <-> exists g, In g (groupby_sum (normalize to_datetime raw))
                             /\ Country g = country /\ Date g = day).
  { split.
    - intros Hne.
      pose proof (find_groupby_sum country day (normalize to_datetime raw)) as Hf.
      rewrite (group_total_cons _ _ _ Hne) in Hf.
      apply find_key_in in Hf. eexists. exact Hf.
    - intros (g & Hg & <- & <-) Hnil.
      pose proof (find_key_sorted_in _ _ (groupby_sum_sorted _) Hg) as Hf.
      rewrite find_groupby_sum, (group_total_nil _ _ _ Hnil) in Hf. discriminate. }
  rewrite Hk. split.
  - intros (r & Hr & Hd). apply filtered_In in Hr. destruct Hr as (Hin & Hc & Hrange).
    rewrite Hd in Hrange. split; [exact Hrange | ].
    unfold load_data, derive in Hin. apply in_map_iff in Hin.
    destruct Hin as (g & <- & Hg). cbn [add_features daily] in *. now exists g.
  - intros (Hrange & g & Hg & Hc & Hd). exists (add_features g). split.
    + apply filtered_In. cbn [add_features daily]. rewrite Hc, Hd.
      repeat split; try lia. unfold load_data, derive. now apply in_map.
    + cbn [add_features daily]. exact Hd.
Qed.

(* ================================================================= *)
(** ** The callback on a dataset with rows *)

(** X19. On a dataset with at least one row a call whose dates parse returns
    the result of the query; when its series is empty the four KPIs are 0,
    and with reversed bounds the series is empty and the four KPIs are 0. *)
Theorem empty_selection_zero_kpis
  (to_datetime : list string -> string -> option date)
  (strptime : string -> option date) (raw : list RawRecord)
  (country start_date_str end_date_str : string) (startDate endDate : date) :
  let data := data_frame to_datetime raw in
  records data <> [] ->
  strptime (date_part start_date_str) = Some startDate ->
  strptime (date_part end_date_str) = Some endDate ->
  exists q,
    update_dashboard strptime data country start_date_str end_date_str
    = Returned q
    /\ q = query (records data) country startDate endDate
    /\ (series q = [] -> q = empty_result)
    /\ (endDate < startDate -> q = empty_result).
Proof.
  intros data Hrows Hs He.
  exists (query (records data) country startDate endDate).
  unfold update_dashboard. rewrite Hs, He.
  subst data. rewrite (data_frame_rows_dtype _ _ Hrows).
  set (rows := records (data_frame to_datetime raw)).
  split; [reflexivity | split; [reflexivity | ]].
  assert (Hnil : series (query rows country startDate endDate) = [] ->
                 query rows country startDate endDate = empty_result).
  { unfold query. cbn [series]. intros ->. reflexivity. }
  split; [exact Hnil | ].
  intros Hrev. apply Hnil. cbn [query series]. now apply filtered_nil_reversed.
Qed.

(** The scenario with its two bounds exchanged. *)
Lemma empty_selection_zero_kpis_witness :
  update_dashboard strptime_iso sample_frame "X" "2021-01-02" "2021-01-01"
  = Returned empty_result.
Proof.
  destruct (empty_selection_zero_kpis to_datetime_iso strptime_iso sample_raw
              "X" "2021-01-02" "2021-01-01" 737792 737791)
    as (q & Hq & _ & _ & Hrev).
  - vm_compute. discriminate.
  - vm_compute. reflexivity.
  - vm_compute. reflexivity.
  - unfold sample_frame. rewrite Hq. f_equal. apply Hrev. vm_compute. reflexivity.
Defined.
